(** * vault-raft-backup: snapshot-and-transfer pipeline

    A shallow embedding of the Go program of this repository and the proofs
    of the properties its specification states.

    The repository holds two variants of the program.
    - [src/main.go]: [vaultRaftSnapshot] takes the whole [VaultConfig],
      builds the client, checks the token and streams the snapshot.  It is
      embedded in [Module MainGo].
    - src/unnamed/part_000: the program with [vaultClientConfig] (TLS flag,
      "aws-iam" login) and [vaultRaftSnapshot client snapshotPath].  It is
      embedded in [Module Part000].
    [snapshotFileClose] is the same text in both; [snapshotS3Upload] differs
    only in the format string of one message.  (part_000 also holds a
    text of the program in which the authentication of [vaultClientConfig]
    is written inside [vaultRaftSnapshot]; its branches are those of the
    two variants embedded here.  It is embedded in [Module Part000Inline]
    and compared with the other two in the last part of the file.)

    What the program calls but does not define (Go's [os], [strconv],
    [path/filepath], [log], [fmt], the Vault API and the AWS SDK) is modelled
    in the first part of the file: deterministic library functions
    ([strconv.ParseBool], [filepath.Base], [os.File.Close] on a closed file)
    after their Go definitions, and the answers of the outside world (the
    cluster, the object store, the disk) as a [Scenario] the program runs
    against. *)

From Stdlib Require Import ZArith Ascii String List Bool Lia.
From stdpp Require Import base option list gmap strings fin_maps.

Open Scope string_scope.
Open Scope Z_scope.
Open Scope list_scope.

(** ** Go values the program handles *)

Abbreviation byte := Byte.byte.

(** Go's [error] values.  [errors_New] is [errors.New]; [PathError] is
    [fs.PathError] as [os] builds it; [ErrClosed] is [os.ErrClosed];
    [ENOENT] and [EBADF] are [syscall] errors; [NumError] is [strconv.NumError];
    [External] is an error produced by a collaborator (cluster, object
    store, operating system). *)
Inductive error : Type :=
| errors_New (msg : string)
| PathError (op path : string) (err : error)
| ErrClosed
| ErrInvalid
| ENOENT
| EBADF
| NumError (func num : string)
| External (msg : string).

(** Arguments of the printing functions. *)
Inductive value : Type :=
| VStr (s : string)
| VErr (e : error)
| VNilDeref.

(** Everything the process does that is visible from outside, in the order
    it happens: output, and calls to collaborators. *)
Inductive event : Type :=
| Println (v : value)                           (* fmt.Println *)
| Printf (format : string) (args : list value)  (* fmt.Printf *)
| Fatalln (v : value)                           (* log.Fatalln's output *)
| ConfigureTLS (insecure : bool)
| NewClient (address : string)
| NewAWSAuth
| Login                                         (* client.Auth().Login *)
| SetToken (token : string)
| OpenFile (name : string) (flag : Z)
| RaftSnapshot (token : string)                 (* client.Sys().RaftSnapshot *)
| Close (file : option nat)                     (* File.Close *)
| NewSession (region : string)
| Upload (bucket key : string) (body : list byte).

(** The calls that go over the network. *)
Definition is_network_call (e : event) : bool :=
  match e with
  | Login | RaftSnapshot _ | Upload _ _ _ => true
  | _ => false
  end.

Definition is_upload (e : event) : bool :=
  match e with Upload _ _ _ => true | _ => false end.

Definition is_printf (e : event) : bool :=
  match e with Printf _ _ => true | _ => false end.

Definition is_close_of (f : nat) (e : event) : bool :=
  match e with Close (Some g) => Nat.eqb f g | _ => false end.

(** ** The process state *)

(** A Go [os.File] pointer: [None] is [nil], [Some i] points to the
    [i]-th object of [files].  The object holds the name it was opened
    with, the open flag, the current offset, and whether [Close] has been
    called on it. *)
Record File : Type := mkFile {
  file_name : string;
  file_flag : Z;
  file_offset : nat;
  file_closed : bool
}.

(** [environ]: the environment variables of the process.
    [fs]: the files on disk, by path.  [files]: the [os.File] objects the
    process has allocated; a pointer is an index into this list.
    [trace]: the events so far, oldest first. *)
Record World : Type := mkWorld {
  environ : gmap string string;
  fs : gmap string (list byte);
  files : list File;
  trace : list event
}.

Definition initial_world (env : gmap string string)
    (disk : gmap string (list byte)) : World :=
  {| environ := env; fs := disk; files := []; trace := [] |}.

Definition emit (e : event) (w : World) : World :=
  {| environ := environ w; fs := fs w; files := files w;
     trace := trace w ++ [e] |}.

(** ** The answers of the outside world during one run *)

Inductive LoginResult : Type :=
| LoginError (e : error)       (* err != nil *)
| LoginNoAuthInfo              (* err == nil, authInfo == nil *)
| LoginOk (token : string).    (* the client token of the returned secret *)

Inductive StreamResult : Type :=
| StreamOk                       (* the whole payload reached the sink *)
| StreamError (written : nat) (e : error).
                                 (* the call failed after [written] bytes *)

Record Scenario : Type := mkScenario {
  tls_error : option error;                    (* Config.ConfigureTLS *)
  client_error : option error;                 (* api.NewClient *)
  awsauth_error : option error;                (* auth.NewAWSAuth *)
  login_result : LoginResult;                  (* client.Auth().Login *)
  open_denied : string -> Z -> option error;   (* the OS refusing an open *)
  snapshot_payload : list byte;                (* the cluster's snapshot *)
  stream_result : StreamResult;                (* Sys().RaftSnapshot *)
  close_error : nat -> option error;           (* close(2) failing *)
  session_error : option error;                (* session.NewSession *)
  upload_error : option error;                 (* uploader.Upload *)
  upload_location : string -> string -> string (* Location S3 answers *)
}.

(** ** Control flow: return, [os.Exit], panic, [defer] *)

Inductive outcome (A : Type) : Type :=
| Returns (a : A) (w : World)
| Exits (code : Z) (w : World)      (* os.Exit: nothing else runs *)
| Panics (v : value) (w : World).   (* panic: deferred calls still run *)
Arguments Returns {A} a w.
Arguments Exits {A} code w.
Arguments Panics {A} v w.

Definition Go (A : Type) : Type := World -> outcome A.

#[global] Instance go_ret : MRet Go := fun A a w => Returns a w.

#[global] Instance go_bind : MBind Go := fun A B k m w =>
  match m w with
  | Returns a w1 => k a w1
  | Exits c w1 => Exits c w1
  | Panics v w1 => Panics v w1
  end.

Definition do_emit (e : event) : Go unit := fun w => Returns tt (emit e w).

(** [defer d] followed by [body]: [d] runs when [body] returns or panics,
    after the return values are evaluated; it does not run when [body]
    ends the process with [os.Exit]. *)
Definition defer {A} (d : Go unit) (body : Go A) : Go A :=
  fun w =>
    match body w with
    | Returns a w1 =>
        match d w1 with
        | Returns _ w2 => Returns a w2
        | Exits c w2 => Exits c w2
        | Panics v w2 => Panics v w2
        end
    | Exits c w1 => Exits c w1
    | Panics v w1 =>
        match d w1 with
        | Returns _ w2 => Panics v w2
        | Exits c w2 => Exits c w2
        | Panics v' w2 => Panics v' w2
        end
    end.

(** The exit status of the process and its final state, for a [main]. *)
Definition run (main : Go unit) (env : gmap string string)
    (disk : gmap string (list byte)) : Z * World :=
  match main (initial_world env disk) with
  | Returns _ w => (0, w)
  | Exits c w => (c, w)
  | Panics _ w => (2, w)
  end.

(** ** Library functions *)

Definition fmt_Println (v : value) : Go unit := do_emit (Println v).
Definition fmt_Printf (format : string) (args : list value) : Go unit :=
  do_emit (Printf format args).

(** [log.Fatalln]: print, then [os.Exit(1)]. *)
Definition log_Fatalln {A} (v : value) : Go A :=
  fun w => Exits 1 (emit (Fatalln v) w).

(** [os.Getenv]: the value of the variable, empty when it is not set. *)
Definition getenv (env : gmap string string) (key : string) : string :=
  default "" (env !! key).

Definition os_Getenv (key : string) : Go string :=
  fun w => Returns (getenv (environ w) key) w.

(** [strconv.ParseBool]. *)
Definition strconv_ParseBool (str : string) : bool * option error :=
  if (String.eqb str "1" || String.eqb str "t" || String.eqb str "T"
      || String.eqb str "TRUE" || String.eqb str "true"
      || String.eqb str "True")%bool
  then (true, None)
  else if (String.eqb str "0" || String.eqb str "f" || String.eqb str "F"
           || String.eqb str "FALSE" || String.eqb str "false"
           || String.eqb str "False")%bool
  then (false, None)
  else (false, Some (NumError "ParseBool" str)).

(** [len] of a Go string: its number of bytes. *)
Definition len (s : string) : Z := Z.of_nat (String.length s).

(** [filepath.Base] (Unix: the separator is [/], there is no volume name). *)
Definition IsPathSeparator (c : Ascii.ascii) : bool := Ascii.eqb c "/"%char.

Fixpoint has_separator (s : string) : bool :=
  match s with
  | EmptyString => false
  | String c r => IsPathSeparator c || has_separator r
  end.

(** "Strip trailing slashes". *)
Fixpoint strip_trailing (s : string) : string :=
  match s with
  | EmptyString => EmptyString
  | String c r =>
      match strip_trailing r with
      | EmptyString => if IsPathSeparator c then EmptyString
                       else String c EmptyString
      | r' => String c r'
      end
  end.

(** "Find the last element": what follows the last separator. *)
Fixpoint last_element (s : string) : string :=
  match s with
  | EmptyString => EmptyString
  | String c r =>
      if has_separator r then last_element r
      else if IsPathSeparator c then r
      else String c r
  end.

Definition filepath_Base (path : string) : string :=
  if String.eqb path "" then "."
  else
    let path := last_element (strip_trailing path) in
    if String.eqb path "" then "/" else path.

(** *** Package [os] *)

Definition O_RDONLY : Z := 0.
Definition O_WRONLY : Z := 1.
Definition O_RDWR : Z := 2.
Definition O_CREATE : Z := 64.   (* 0x40 *)
Definition O_TRUNC : Z := 512.   (* 0x200 *)

Definition has_flag (flag bit : Z) : bool := negb (Z.land flag bit =? 0).
Definition access_mode (flag : Z) : Z := Z.land flag 3.
Definition writable (flag : Z) : bool :=
  (access_mode flag =? O_WRONLY) || (access_mode flag =? O_RDWR).
Definition readable (flag : Z) : bool :=
  (access_mode flag =? O_RDONLY) || (access_mode flag =? O_RDWR).

Definition set_fs (m : gmap string (list byte)) (w : World) : World :=
  {| environ := environ w; fs := m; files := files w; trace := trace w |}.
Definition set_files (l : list File) (w : World) : World :=
  {| environ := environ w; fs := fs w; files := l; trace := trace w |}.

(** A new file object at offset 0. *)
Definition new_file (name : string) (flag : Z) (w : World) : nat * World :=
  (length (files w),
   set_files (files w ++ [mkFile name flag 0 false]) w).

(** [os.OpenFile name flag perm]. *)
Definition os_OpenFile (sc : Scenario) (name : string) (flag perm : Z)
  : Go (option nat * option error) :=
  fun w =>
    let w := emit (OpenFile name flag) w in
    match open_denied sc name flag with
    | Some e => Returns (None, Some (PathError "open" name e)) w
    | None =>
        match fs w !! name with
        | None =>
            if has_flag flag O_CREATE then
              let '(f, w) := new_file name flag (set_fs (<[name := []]> (fs w)) w) in
              Returns (Some f, None) w
            else Returns (None, Some (PathError "open" name ENOENT)) w
        | Some _ =>
            let w := if has_flag flag O_TRUNC
                     then set_fs (<[name := []]> (fs w)) w else w in
            let '(f, w) := new_file name flag w in
            Returns (Some f, None) w
        end
    end.

(** [os.Open name] is [OpenFile(name, O_RDONLY, 0)]. *)
Definition os_Open (sc : Scenario) (name : string)
  : Go (option nat * option error) :=
  os_OpenFile sc name O_RDONLY 0.

Definition deref (f : option nat) (w : World) : option (nat * File) :=
  i ← f; h ← files w !! i; Some (i, h).

(** [File.Name] of package [os]. *)
Definition File_Name (f : option nat) : Go string :=
  fun w =>
    match deref f w with
    | Some (_, h) => Returns (file_name h) w
    | None => Panics VNilDeref w
    end.

(** [File.Close] of package [os]: "Close will return an error if it has
    already been called."  The first call marks the file closed whether or
    not the operating system reports an error. *)
Definition File_Close (sc : Scenario) (f : option nat) : Go (option error) :=
  fun w =>
    let w := emit (Close f) w in
    match deref f w with
    | None => Returns (Some ErrInvalid) w
    | Some (i, h) =>
        if file_closed h
        then Returns (Some (PathError "close" (file_name h) ErrClosed)) w
        else
          let h' := mkFile (file_name h) (file_flag h) (file_offset h) true in
          Returns (PathError "close" (file_name h) <$> close_error sc i)
                  (set_files (<[i := h']> (files w)) w)
    end.

(** The content of a file after [data] is written at offset [off]. *)
Definition write_at (off : nat) (data content : list byte) : list byte :=
  take off content ++ replicate (off - length content) Byte.x00
    ++ data ++ drop (off + length data) content.

(** [File.Write] of package [os]. *)
Definition File_Write (f : option nat) (data : list byte) : Go (option error) :=
  fun w =>
    match deref f w with
    | None => Returns (Some ErrInvalid) w
    | Some (i, h) =>
        if file_closed h
        then Returns (Some (PathError "write" (file_name h) ErrClosed)) w
        else if negb (writable (file_flag h))
        then Returns (Some (PathError "write" (file_name h) EBADF)) w
        else
          let content := default [] (fs w !! file_name h) in
          let h' := mkFile (file_name h) (file_flag h)
                      (file_offset h + length data) false in
          Returns None
            (set_files (<[i := h']> (files w))
               (set_fs (<[file_name h :=
                            write_at (file_offset h) data content]> (fs w)) w))
    end.

(** Reading a file from its offset to its end, as an [io.Reader] consumer
    does. *)
Definition File_ReadAll (f : option nat) : Go (list byte * option error) :=
  fun w =>
    match deref f w with
    | None => Returns ([], Some ErrInvalid) w
    | Some (i, h) =>
        if file_closed h
        then Returns ([], Some (PathError "read" (file_name h) ErrClosed)) w
        else if negb (readable (file_flag h))
        then Returns ([], Some (PathError "read" (file_name h) EBADF)) w
        else
          let content := default [] (fs w !! file_name h) in
          let h' := mkFile (file_name h) (file_flag h)
                      (max (file_offset h) (length content)) false in
          Returns (drop (file_offset h) content, None)
                  (set_files (<[i := h']> (files w)) w)
    end.

(** *** The Vault API client *)

Record Config : Type := mkConfig {
  Address : string;
  TLSInsecure : bool
}.

Record Client : Type := mkClient {
  client_config : Config;
  client_token : string
}.

(** [Config.ConfigureTLS]: records the TLS settings in the configuration. *)
Definition Config_ConfigureTLS (sc : Scenario) (c : Config) (insecure : bool)
  : Go (Config * option error) :=
  _ ← do_emit (ConfigureTLS insecure);
  match tls_error sc with
  | Some e => mret (c, Some e)
  | None => mret (mkConfig (Address c) insecure, None)
  end.

(** [api.NewClient]: the new client starts with the token of the
    environment variable VAULT_TOKEN. *)
Definition api_NewClient (sc : Scenario) (c : Config)
  : Go (option Client * option error) :=
  _ ← do_emit (NewClient (Address c));
  match client_error sc with
  | Some e => mret (None, Some e)
  | None => tok ← os_Getenv "VAULT_TOKEN"; mret (Some (mkClient c tok), None)
  end.

(** [Client.SetToken]; the client is a pointer, [None] is [nil]. *)
Definition Client_SetToken (client : option Client) (v : string)
  : Go (option Client) :=
  match client with
  | None => fun w => Panics VNilDeref w
  | Some c => _ ← do_emit (SetToken v); mret (Some (mkClient (client_config c) v))
  end.

(** [auth.NewAWSAuth(auth.WithIAMAuth())]. *)
Definition auth_NewAWSAuth (sc : Scenario) : Go (option unit * option error) :=
  _ ← do_emit NewAWSAuth;
  match awsauth_error sc with
  | Some e => mret (None, Some e)
  | None => mret (Some tt, None)
  end.

(** [client.Auth().Login]: on success the client holds the token of the
    returned secret.  The result is the client, the returned [*Secret]
    (its client token) and the error. *)
Definition Auth_Login (sc : Scenario) (client : option Client)
    (authMethod : option unit)
  : Go (option Client * option string * option error) :=
  match client with
  | None => fun w => Panics VNilDeref w
  | Some c =>
      _ ← do_emit Login;
      match login_result sc with
      | LoginError e => mret (client, None, Some e)
      | LoginNoAuthInfo => mret (client, None, None)
      | LoginOk tok => mret (Some (mkClient (client_config c) tok), Some tok, None)
      end
  end.

(** [client.Sys().RaftSnapshot(snapWriter)]: the cluster streams the
    snapshot into the sink.  On success the whole payload was written. *)
Definition Sys_RaftSnapshot (sc : Scenario) (client : option Client)
    (snapWriter : option nat) : Go (option error) :=
  match client with
  | None => fun w => Panics VNilDeref w
  | Some c =>
      _ ← do_emit (RaftSnapshot (client_token c));
      match stream_result sc with
      | StreamOk => File_Write snapWriter (snapshot_payload sc)
      | StreamError n e =>
          _ ← File_Write snapWriter (take n (snapshot_payload sc));
          mret (Some e)
      end
  end.

(** *** The AWS SDK *)

Record Session : Type := mkSession { session_region : string }.
Record Uploader : Type := mkUploader { uploader_session : Session }.
Record UploadOutput : Type := mkUploadOutput { Location : string }.

Definition session_NewSession (sc : Scenario) (region : string)
  : Go (option Session * option error) :=
  _ ← do_emit (NewSession region);
  match session_error sc with
  | Some e => mret (None, Some e)
  | None => mret (Some (mkSession region), None)
  end.

(** [session.Must]: panics when the error is not nil. *)
Definition session_Must (r : option Session * option error)
  : Go (option Session) :=
  match r.2 with
  | Some e => fun w => Panics (VErr e) w
  | None => mret r.1
  end.

Definition s3manager_NewUploader (sess : option Session) : Go Uploader :=
  match sess with
  | None => fun w => Panics VNilDeref w
  | Some s => mret (mkUploader s)
  end.

(** [uploader.Upload]: reads the body to its end and puts it under the key
    of the bucket. *)
Definition Uploader_Upload (sc : Scenario) (u : Uploader)
    (bucket key : string) (body : option nat)
  : Go (option UploadOutput * option error) :=
  '(data, rerr) ← File_ReadAll body;
  _ ← do_emit (Upload bucket key data);
  match rerr with
  | Some e => mret (None, Some e)
  | None =>
      match upload_error sc with
      | Some e => mret (None, Some e)
      | None => mret (Some (mkUploadOutput (upload_location sc bucket key)), None)
      end
  end.

(** [aws.StringValue(&uploadResult.Location)]. *)
Definition UploadOutput_Location (r : option UploadOutput) : Go string :=
  match r with
  | None => fun w => Panics VNilDeref w
  | Some o => mret (Location o)
  end.

Definition newline : string := String (ascii_of_nat 10) EmptyString.

(** * The program with [vaultClientConfig] (src/unnamed/part_000) *)

Module Part000.

Record VaultConfig : Type := mkVaultConfig {
  vaultAddr : string;
  token : string;
  snapshotPath : string;
  insecure : bool
}.

Record AWSConfig : Type := mkAWSConfig {
  s3Bucket : string;
  s3Prefix : string;
  s3Region : string
}.

Section Program.
Variable sc : Scenario.

(** close snapshot file *)
Definition snapshotFileClose (snapshotFile : option nat) : Go unit :=
  err ← File_Close sc snapshotFile;
  match err with
  | Some e =>
      _ ← fmt_Println (VStr "Vault raft snapshot file failed to close");
      log_Fatalln (VErr e)
  | None => mret tt
  end.

(** vault client configuration *)
Definition vaultClientConfig (config : VaultConfig)
  : Go (option Client * option error) :=
  let vaultConfig := mkConfig (vaultAddr config) false in
  '(vaultConfig, err) ← Config_ConfigureTLS sc vaultConfig (insecure config);
  match err with
  | Some e =>
      _ ← fmt_Println (VStr "Vault TLS configuration failed to initialize");
      _ ← fmt_Println (VErr e);
      mret (None, Some e)
  | None =>
  '(client, err) ← api_NewClient sc vaultConfig;
  match err with
  | Some e =>
      _ ← fmt_Println (VStr "Vault client failed to initialize");
      _ ← fmt_Println (VErr e);
      mret (None, Some e)
  | None =>
  if String.eqb (token config) "aws-iam" then
    '(awsAuth, err) ← auth_NewAWSAuth sc;
    match err with
    | Some _ =>
        mret (None, Some (errors_New "Unable to initialize AWS IAM authentication"))
    | None =>
    '(client, authInfo, err) ← Auth_Login sc client awsAuth;
    match err with
    | Some _ =>
        mret (None, Some (errors_New "Unable to login to AWS IAM auth method"))
    | None =>
    match authInfo with
    | None =>
        mret (None, Some (errors_New "No auth info was returned after login"))
    | Some _ => mret (client, None)
    end end end
  else
    if negb (len (token config) =? 26) then
      mret (None, Some (errors_New "The Vault token is invalid"))
    else
      client ← Client_SetToken client (token config);
      mret (client, None)
  end end.

(** vault raft snapshot creation *)
Definition vaultRaftSnapshot (client : option Client) (snapshotPath : string)
  : Go (option nat * option error) :=
  '(snapshotFile, err) ←
    os_OpenFile sc snapshotPath (Z.lor (Z.lor O_CREATE O_WRONLY) O_TRUNC) 420;
  match err with
  | Some e =>
      _ ← fmt_Println
            (VStr ("snapshot file at " +:+ snapshotPath +:+ " could not be created"));
      _ ← fmt_Println (VErr e);
      mret (None, Some e)
  | None =>
  defer (snapshotFileClose snapshotFile) (
    err ← Sys_RaftSnapshot sc client snapshotFile;
    match err with
    | Some e =>
        _ ← File_Close sc snapshotFile;
        _ ← fmt_Println (VStr "Vault Raft snapshot invocation failed");
        _ ← fmt_Println (VErr e);
        mret (None, Some e)
    | None => mret (snapshotFile, None)
    end)
  end.

(** snapshot upload to s3 *)
Definition snapshotS3Upload (config : AWSConfig) (snapshotPath : string)
  : Go (option UploadOutput * option error) :=
  '(snapshotFile, err) ← os_Open sc snapshotPath;
  match err with
  | Some e =>
      _ ← fmt_Printf "Failed to open snapshot file %q: %v"
            [VStr snapshotPath; VErr e];
      mret (None, Some e)
  | None =>
  defer (snapshotFileClose snapshotFile) (
    awsSession ← (r ← session_NewSession sc (s3Region config); session_Must r);
    uploader ← s3manager_NewUploader awsSession;
    let snapshotPathBase := filepath_Base snapshotPath in
    '(uploadResult, err) ←
      Uploader_Upload sc uploader (s3Bucket config)
        (s3Prefix config +:+ "-" +:+ snapshotPathBase) snapshotFile;
    match err with
    | Some e =>
        _ ← fmt_Println
              (VStr ("Vault backup failed to upload to S3 bucket " +:+ s3Bucket config));
        _ ← fmt_Println (VErr e);
        mret (None, Some e)
    | None => mret (uploadResult, None)
    end)
  end.

Definition main : Go unit :=
  skip ← os_Getenv "VAULT_SKIP_VERIFY";
  let '(insecure, err) := strconv_ParseBool skip in
  match err with
  | Some _ => log_Fatalln (VStr "Invalid boolean value for VAULT_SKIP_VERIFY")
  | None =>
  addr ← os_Getenv "VAULT_ADDR";
  tok ← os_Getenv "VAULT_TOKEN";
  path ← os_Getenv "VAULT_SNAPSHOT_PATH";
  let vaultConfig := mkVaultConfig addr tok path insecure in
  bucket ← os_Getenv "S3_BUCKET";
  prefix ← os_Getenv "S3_PREFIX";
  region ← os_Getenv "AWS_REGION";
  let awsConfig := mkAWSConfig bucket prefix region in
  '(vaultClient, err) ← vaultClientConfig vaultConfig;
  match err with
  | Some _ =>
      log_Fatalln (VStr "Vault client initialization and configuration failed")
  | None =>
  '(snapshotFile, err) ← vaultRaftSnapshot vaultClient (snapshotPath vaultConfig);
  match err with
  | Some _ => log_Fatalln (VStr "Vault Raft Snapshot failed")
  | None =>
  name ← File_Name snapshotFile;
  '(uploadResult, err) ← snapshotS3Upload awsConfig name;
  match err with
  | Some _ => log_Fatalln (VStr "S3 upload failed")
  | None =>
  location ← UploadOutput_Location uploadResult;
  fmt_Printf ("Vault Raft snapshot uploaded to, %s" +:+ newline) [VStr location]
  end end end end.

End Program.
End Part000.

(** * The program of src/main.go *)

Module MainGo.

Record VaultConfig : Type := mkVaultConfig {
  vaultAddr : string;
  token : string;
  snapshotPath : string
}.

Record AWSConfig : Type := mkAWSConfig {
  s3Bucket : string;
  s3Prefix : string;
  s3Region : string
}.

Section Program.
Variable sc : Scenario.

(** close snapshot file *)
Definition snapshotFileClose (snapshotFile : option nat) : Go unit :=
  err ← File_Close sc snapshotFile;
  match err with
  | Some e =>
      _ ← fmt_Println (VStr "Vault raft snapshot file failed to close");
      log_Fatalln (VErr e)
  | None => mret tt
  end.

(** vault raft snapshot creation *)
Definition vaultRaftSnapshot (config : VaultConfig)
  : Go (option nat * option error) :=
  '(client, err) ← api_NewClient sc (mkConfig (vaultAddr config) false);
  match err with
  | Some e =>
      _ ← fmt_Println (VStr "Vault client failed to initialize");
      _ ← fmt_Println (VErr e);
      mret (None, Some e)
  | None =>
  if negb (len (token config) =? 26) then
    mret (None, Some (errors_New "The Vault token is invalid"))
  else
  client ← Client_SetToken client (token config);
  '(snapshotFile, err) ←
    os_OpenFile sc (snapshotPath config)
      (Z.lor (Z.lor O_CREATE O_WRONLY) O_TRUNC) 420;
  match err with
  | Some e =>
      _ ← fmt_Println
            (VStr ("snapshot file at " +:+ snapshotPath config
                   +:+ " could not be created"));
      _ ← fmt_Println (VErr e);
      mret (None, Some e)
  | None =>
  defer (snapshotFileClose snapshotFile) (
    err ← Sys_RaftSnapshot sc client snapshotFile;
    match err with
    | Some e =>
        _ ← File_Close sc snapshotFile;
        _ ← fmt_Println (VStr "Vault Raft snapshot invocation failed");
        _ ← fmt_Println (VErr e);
        mret (None, Some e)
    | None => mret (snapshotFile, None)
    end)
  end end.

(** snapshot upload to s3 *)
Definition snapshotS3Upload (config : AWSConfig) (snapshotPath : string)
  : Go (option UploadOutput * option error) :=
  '(snapshotFile, err) ← os_Open sc snapshotPath;
  match err with
  | Some e =>
      _ ← fmt_Printf "Failed to open snapshot file %q, %v"
            [VStr snapshotPath; VErr e];
      mret (None, Some e)
  | None =>
  defer (snapshotFileClose snapshotFile) (
    awsSession ← (r ← session_NewSession sc (s3Region config); session_Must r);
    uploader ← s3manager_NewUploader awsSession;
    let snapshotPathBase := filepath_Base snapshotPath in
    '(uploadResult, err) ←
      Uploader_Upload sc uploader (s3Bucket config)
        (s3Prefix config +:+ "-" +:+ snapshotPathBase) snapshotFile;
    match err with
    | Some e =>
        _ ← fmt_Println
              (VStr ("Vault backup failed to upload to S3 bucket " +:+ s3Bucket config));
        _ ← fmt_Println (VErr e);
        mret (None, Some e)
    | None => mret (uploadResult, None)
    end)
  end.

Definition main : Go unit :=
  addr ← os_Getenv "VAULT_ADDR";
  tok ← os_Getenv "VAULT_TOKEN";
  path ← os_Getenv "VAULT_SNAPSHOT_PATH";
  let vaultConfig := mkVaultConfig addr tok path in
  bucket ← os_Getenv "S3_BUCKET";
  prefix ← os_Getenv "S3_PREFIX";
  region ← os_Getenv "AWS_REGION";
  let awsConfig := mkAWSConfig bucket prefix region in
  '(snapshotFile, err) ← vaultRaftSnapshot vaultConfig;
  match err with
  | Some _ => log_Fatalln (VStr "Vault Raft Snapshot failed")
  | None =>
  name ← File_Name snapshotFile;
  '(uploadResult, err) ← snapshotS3Upload awsConfig name;
  match err with
  | Some _ => log_Fatalln (VStr "S3 upload failed")
  | None =>
  location ← UploadOutput_Location uploadResult;
  fmt_Printf ("Vault Raft snapshot uploaded to, %s" +:+ newline) [VStr location]
  end end.

End Program.
End MainGo.

(** * The program with the authentication inside [vaultRaftSnapshot]
      (src/unnamed/part_000, second text) *)

Module Part000Inline.

Record VaultConfig : Type := mkVaultConfig {
  vaultAddr : string;
  token : string;
  snapshotPath : string;
  insecure : bool
}.

Record AWSConfig : Type := mkAWSConfig {
  s3Bucket : string;
  s3Prefix : string;
  s3Region : string
}.

Section Program.
Variable sc : Scenario.

(** close snapshot file *)
Definition snapshotFileClose (snapshotFile : option nat) : Go unit :=
  err ← File_Close sc snapshotFile;
  match err with
  | Some e =>
      _ ← fmt_Println (VStr "Vault raft snapshot file failed to close");
      log_Fatalln (VErr e)
  | None => mret tt
  end.

(** vault raft snapshot creation *)
Definition vaultRaftSnapshot (config : VaultConfig)
  : Go (option nat * option error) :=
  (* what follows the choice of the authentication method *)
  let snapshot (client : option Client) : Go (option nat * option error) :=
    '(snapshotFile, err) ←
      os_OpenFile sc (snapshotPath config)
        (Z.lor (Z.lor O_CREATE O_WRONLY) O_TRUNC) 420;
    match err with
    | Some e =>
        _ ← fmt_Println
              (VStr ("snapshot file at " +:+ snapshotPath config
                     +:+ " could not be created"));
        _ ← fmt_Println (VErr e);
        mret (None, Some e)
    | None =>
    defer (snapshotFileClose snapshotFile) (
      err ← Sys_RaftSnapshot sc client snapshotFile;
      match err with
      | Some e =>
          _ ← File_Close sc snapshotFile;
          _ ← fmt_Println (VStr "Vault Raft snapshot invocation failed");
          _ ← fmt_Println (VErr e);
          mret (None, Some e)
      | None => mret (snapshotFile, None)
      end)
    end in
  let vaultConfig := mkConfig (vaultAddr config) false in
  '(vaultConfig, err) ← Config_ConfigureTLS sc vaultConfig (insecure config);
  match err with
  | Some e =>
      _ ← fmt_Println (VStr "Vault TLS configuration failed to initialize");
      _ ← fmt_Println (VErr e);
      mret (None, Some e)
  | None =>
  '(client, err) ← api_NewClient sc vaultConfig;
  match err with
  | Some e =>
      _ ← fmt_Println (VStr "Vault client failed to initialize");
      _ ← fmt_Println (VErr e);
      mret (None, Some e)
  | None =>
  if String.eqb (token config) "aws-iam" then
    '(awsAuth, err) ← auth_NewAWSAuth sc;
    match err with
    | Some _ =>
        mret (None, Some (errors_New "Unable to initialize AWS IAM authentication"))
    | None =>
    '(client, authInfo, err) ← Auth_Login sc client awsAuth;
    match err with
    | Some _ =>
        mret (None, Some (errors_New "Unable to login to AWS IAM auth method"))
    | None =>
    match authInfo with
    | None =>
        mret (None, Some (errors_New "No auth info was returned after login"))
    | Some _ => snapshot client
    end end end
  else
    if negb (len (token config) =? 26) then
      mret (None, Some (errors_New "The Vault token is invalid"))
    else
      client ← Client_SetToken client (token config);
      snapshot client
  end end.

(** snapshot upload to s3 *)
Definition snapshotS3Upload (config : AWSConfig) (snapshotPath : string)
  : Go (option UploadOutput * option error) :=
  '(snapshotFile, err) ← os_Open sc snapshotPath;
  match err with
  | Some e =>
      _ ← fmt_Printf "Failed to open snapshot file %q, %v"
            [VStr snapshotPath; VErr e];
      mret (None, Some e)
  | None =>
  defer (snapshotFileClose snapshotFile) (
    awsSession ← (r ← session_NewSession sc (s3Region config); session_Must r);
    uploader ← s3manager_NewUploader awsSession;
    let snapshotPathBase := filepath_Base snapshotPath in
    '(uploadResult, err) ←
      Uploader_Upload sc uploader (s3Bucket config)
        (s3Prefix config +:+ "-" +:+ snapshotPathBase) snapshotFile;
    match err with
    | Some e =>
        _ ← fmt_Println
              (VStr ("Vault backup failed to upload to S3 bucket " +:+ s3Bucket config));
        _ ← fmt_Println (VErr e);
        mret (None, Some e)
    | None => mret (uploadResult, None)
    end)
  end.

Definition main : Go unit :=
  skip ← os_Getenv "VAULT_SKIP_VERIFY";
  let '(insecure, err) := strconv_ParseBool skip in
  match err with
  | Some _ => log_Fatalln (VStr "Invalid value for VAULT_SKIP_VERIFY")
  | None =>
  addr ← os_Getenv "VAULT_ADDR";
  tok ← os_Getenv "VAULT_TOKEN";
  path ← os_Getenv "VAULT_SNAPSHOT_PATH";
  let vaultConfig := mkVaultConfig addr tok path insecure in
  bucket ← os_Getenv "S3_BUCKET";
  prefix ← os_Getenv "S3_PREFIX";
  region ← os_Getenv "AWS_REGION";
  let awsConfig := mkAWSConfig bucket prefix region in
  '(snapshotFile, err) ← vaultRaftSnapshot vaultConfig;
  match err with
  | Some _ => log_Fatalln (VStr "Vault Raft Snapshot failed")
  | None =>
  name ← File_Name snapshotFile;
  '(uploadResult, err) ← snapshotS3Upload awsConfig name;
  match err with
  | Some _ => log_Fatalln (VStr "S3 upload failed")
  | None =>
  location ← UploadOutput_Location uploadResult;
  fmt_Printf ("Vault Raft snapshot uploaded to, %s" +:+ newline) [VStr location]
  end end end.

End Program.
End Part000Inline.

(** * Summaries of the stages *)

(** What each stage does, as a function of the answers of the outside
    world.  The lemmas of the next part prove that the program computes
    exactly these results. *)

(** The world after some calls: new disk, new file table, more events. *)
Definition after (w : World) (disk : gmap string (list byte))
    (l : list File) (evs : list event) : World :=
  {| environ := environ w; fs := disk; files := l; trace := trace w ++ evs |}.

Definition world_of {A} (o : outcome A) : World :=
  match o with Returns _ w | Exits _ w | Panics _ w => w end.

Definition closed (h : File) : Prop := file_closed h = true.

(** The flag the snapshot stage opens the staging file with: 577. *)
Definition SNAPSHOT_FLAG : Z := Z.lor (Z.lor O_CREATE O_WRONLY) O_TRUNC.

(** What a stage does to a world [after w m l evs], without the world it
    started from: the new disk, file table and events. *)
Inductive result (A : Type) : Type :=
| Ret (a : A) (m : gmap string (list byte)) (l : list File) (evs : list event)
| Exit (code : Z) (m : gmap string (list byte)) (l : list File)
       (evs : list event)
| Panic (v : value) (m : gmap string (list byte)) (l : list File)
        (evs : list event).
Arguments Ret {A} a m l evs.
Arguments Exit {A} code m l evs.
Arguments Panic {A} v m l evs.

Definition outcome_of {A} (w : World) (r : result A) : outcome A :=
  match r with
  | Ret a m l evs => Returns a (after w m l evs)
  | Exit c m l evs => Exits c (after w m l evs)
  | Panic v m l evs => Panics v (after w m l evs)
  end.

Definition close_failed : event :=
  Println (VStr "Vault raft snapshot file failed to close").

(** The snapshot stage once it has a client, by the answers of the
    operating system and of the cluster. *)
Definition snapshot_result (sc : Scenario) (tok path : string)
    (m : gmap string (list byte)) (l : list File) (evs : list event)
  : result (option nat * option error) :=
  let f := length l in
  let opened := OpenFile path SNAPSHOT_FLAG in
  match open_denied sc path SNAPSHOT_FLAG with
  | Some e =>
      Ret (None, Some (PathError "open" path e)) m l
        (evs ++ [opened;
                 Println (VStr ("snapshot file at " +:+ path
                                +:+ " could not be created"));
                 Println (VErr (PathError "open" path e))])
  | None =>
      match stream_result sc with
      | StreamOk =>
          let payload := snapshot_payload sc in
          let l' := l ++ [mkFile path SNAPSHOT_FLAG (length payload) true] in
          let done := [opened; RaftSnapshot tok; Close (Some f)] in
          match close_error sc f with
          | None => Ret (Some f, None) (<[path := payload]> m) l' (evs ++ done)
          | Some e =>
              Exit 1 (<[path := payload]> m) l'
                (evs ++ done
                 ++ [close_failed; Fatalln (VErr (PathError "close" path e))])
          end
      | StreamError n e =>
          let partial := take n (snapshot_payload sc) in
          Exit 1 (<[path := partial]> m)
            (l ++ [mkFile path SNAPSHOT_FLAG (length partial) true])
            (evs ++ [opened; RaftSnapshot tok; Close (Some f);
                     Println (VStr "Vault Raft snapshot invocation failed");
                     Println (VErr e);
                     Close (Some f);
                     close_failed;
                     Fatalln (VErr (PathError "close" path ErrClosed))])
      end
  end.

(** [vaultRaftSnapshot] of src/main.go: a guard (client, token length)
    before the snapshot stage. *)
Definition guarded_snapshot_result (sc : Scenario) (config : MainGo.VaultConfig)
    (m : gmap string (list byte)) (l : list File) (evs : list event)
  : result (option nat * option error) :=
  let called := NewClient (MainGo.vaultAddr config) in
  match client_error sc with
  | Some e =>
      Ret (None, Some e) m l
        (evs ++ [called; Println (VStr "Vault client failed to initialize");
                 Println (VErr e)])
  | None =>
      if negb (len (MainGo.token config) =? 26)
      then Ret (None, Some (errors_New "The Vault token is invalid")) m l
             (evs ++ [called])
      else snapshot_result sc (MainGo.token config) (MainGo.snapshotPath config)
             m l (evs ++ [called; SetToken (MainGo.token config)])
  end.

(** The upload stage, by the answers of the operating system and of the
    object store.  [format] is the format string of the message of a
    failed open, the one place where the two programs differ. *)
Definition upload_result (sc : Scenario) (format : string)
    (bucket prefix region q : string)
    (m : gmap string (list byte)) (l : list File) (evs : list event)
  : result (option UploadOutput * option error) :=
  let f := length l in
  let opened := OpenFile q O_RDONLY in
  let open_failed e :=
    Ret (None, Some (PathError "open" q e)) m l
      (evs ++ [opened; Printf format [VStr q; VErr (PathError "open" q e)]]) in
  match open_denied sc q O_RDONLY with
  | Some e => open_failed e
  | None =>
      match m !! q with
      | None => open_failed ENOENT
      | Some content =>
          match session_error sc with
          | Some e =>
              let l' := l ++ [mkFile q O_RDONLY 0 true] in
              let done := [opened; NewSession region; Close (Some f)] in
              match close_error sc f with
              | None => Panic (VErr e) m l' (evs ++ done)
              | Some e' =>
                  Exit 1 m l'
                    (evs ++ done
                     ++ [close_failed; Fatalln (VErr (PathError "close" q e'))])
              end
          | None =>
              let key := prefix +:+ "-" +:+ filepath_Base q in
              let l' := l ++ [mkFile q O_RDONLY (length content) true] in
              let put := [opened; NewSession region; Upload bucket key content] in
              let said :=
                match upload_error sc with
                | Some e =>
                    [Println (VStr ("Vault backup failed to upload to S3 bucket "
                                    +:+ bucket));
                     Println (VErr e)]
                | None => []
                end in
              match close_error sc f with
              | None =>
                  Ret
                    (match upload_error sc with
                     | Some e => (None, Some e)
                     | None =>
                         (Some (mkUploadOutput (upload_location sc bucket key)),
                          None)
                     end)
                    m l' (evs ++ put ++ said ++ [Close (Some f)])
              | Some e' =>
                  Exit 1 m l'
                    (evs ++ put ++ said
                     ++ [Close (Some f); close_failed;
                         Fatalln (VErr (PathError "close" q e'))])
              end
          end
      end
  end.

(** [vaultClientConfig], by the answers of the Vault API. *)
Definition client_result (sc : Scenario) (config : Part000.VaultConfig)
    (m : gmap string (list byte)) (l : list File) (evs : list event)
  : result (option Client * option error) :=
  let address := Part000.vaultAddr config in
  let credential := Part000.token config in
  let cfg := mkConfig address (Part000.insecure config) in
  let tls := ConfigureTLS (Part000.insecure config) in
  match tls_error sc with
  | Some e =>
      Ret (None, Some e) m l
        (evs ++ [tls;
                 Println (VStr "Vault TLS configuration failed to initialize");
                 Println (VErr e)])
  | None =>
      let made := [tls; NewClient address] in
      match client_error sc with
      | Some e =>
          Ret (None, Some e) m l
            (evs ++ made
             ++ [Println (VStr "Vault client failed to initialize");
                 Println (VErr e)])
      | None =>
          if String.eqb credential "aws-iam" then
            match awsauth_error sc with
            | Some _ =>
                Ret (None,
                     Some (errors_New "Unable to initialize AWS IAM authentication"))
                  m l (evs ++ made ++ [NewAWSAuth])
            | None =>
                Ret
                  (match login_result sc with
                   | LoginError _ =>
                       (None,
                        Some (errors_New "Unable to login to AWS IAM auth method"))
                   | LoginNoAuthInfo =>
                       (None,
                        Some (errors_New "No auth info was returned after login"))
                   | LoginOk tok => (Some (mkClient cfg tok), None)
                   end)
                  m l (evs ++ made ++ [NewAWSAuth; Login])
            end
          else if negb (len credential =? 26) then
            Ret (None, Some (errors_New "The Vault token is invalid")) m l
              (evs ++ made)
          else
            Ret (Some (mkClient cfg credential), None) m l
              (evs ++ made ++ [SetToken credential])
      end
  end.

(** What [main] does with the result of the snapshot call: stop on an
    error, else upload the file under its name and report. *)
Definition pipeline_result (sc : Scenario) (format : string)
    (bucket prefix region : string)
    (r : result (option nat * option error)) : result unit :=
  match r with
  | Ret (_, Some _) m l evs =>
      Exit 1 m l (evs ++ [Fatalln (VStr "Vault Raft Snapshot failed")])
  | Ret (snapshotFile, None) m l evs =>
      match snapshotFile ≫= (l !!.) with
      | None => Panic VNilDeref m l evs
      | Some h =>
          match upload_result sc format bucket prefix region (file_name h)
                  m l evs with
          | Ret (_, Some _) m' l' evs' =>
              Exit 1 m' l' (evs' ++ [Fatalln (VStr "S3 upload failed")])
          | Ret (None, None) m' l' evs' => Panic VNilDeref m' l' evs'
          | Ret (Some o, None) m' l' evs' =>
              Ret tt m' l'
                (evs' ++ [Printf ("Vault Raft snapshot uploaded to, %s"
                                  +:+ newline) [VStr (Location o)]])
          | Exit c m' l' evs' => Exit c m' l' evs'
          | Panic v m' l' evs' => Panic v m' l' evs'
          end
      end
  | Exit c m l evs => Exit c m l evs
  | Panic v m l evs => Panic v m l evs
  end.

Definition MainGo_config (env : gmap string string) : MainGo.VaultConfig :=
  MainGo.mkVaultConfig (getenv env "VAULT_ADDR") (getenv env "VAULT_TOKEN")
    (getenv env "VAULT_SNAPSHOT_PATH").

Definition MainGo_result (sc : Scenario) (env : gmap string string)
    (disk : gmap string (list byte)) : result unit :=
  pipeline_result sc "Failed to open snapshot file %q, %v"
    (getenv env "S3_BUCKET") (getenv env "S3_PREFIX") (getenv env "AWS_REGION")
    (guarded_snapshot_result sc (MainGo_config env) disk [] []).

Definition Part000_config (env : gmap string string) (insecure : bool)
  : Part000.VaultConfig :=
  Part000.mkVaultConfig (getenv env "VAULT_ADDR") (getenv env "VAULT_TOKEN")
    (getenv env "VAULT_SNAPSHOT_PATH") insecure.

Definition Part000_result (sc : Scenario) (env : gmap string string)
    (disk : gmap string (list byte)) : result unit :=
  match strconv_ParseBool (getenv env "VAULT_SKIP_VERIFY") with
  | (_, Some _) =>
      Exit 1 disk []
        [Fatalln (VStr "Invalid boolean value for VAULT_SKIP_VERIFY")]
  | (insecure, None) =>
      match client_result sc (Part000_config env insecure) disk [] [] with
      | Ret (_, Some _) m l evs =>
          Exit 1 m l
            (evs ++ [Fatalln
                       (VStr "Vault client initialization and configuration failed")])
      | Ret (Some c, None) m l evs =>
          pipeline_result sc "Failed to open snapshot file %q: %v"
            (getenv env "S3_BUCKET") (getenv env "S3_PREFIX")
            (getenv env "AWS_REGION")
            (snapshot_result sc (client_token c) (getenv env "VAULT_SNAPSHOT_PATH")
               m l evs)
      | Ret (None, None) m l evs => Panic VNilDeref m l evs
      | Exit c m l evs => Exit c m l evs
      | Panic v m l evs => Panic v m l evs
      end
  end.

Definition exit_status {A} (r : result A) : Z :=
  match r with
  | Ret _ _ _ _ => 0
  | Exit c _ _ _ => c
  | Panic _ _ _ _ => 2
  end.

Definition final_world {A} (env : gmap string string) (r : result A) : World :=
  match r with
  | Ret _ m l evs | Exit _ m l evs | Panic _ m l evs =>
      {| environ := env; fs := m; files := l; trace := evs |}
  end.

(** A stage called on any world [w]: [w] is [after w (fs w) (files w) []]. *)
Definition emits (evs : list event) (w : World) : World :=
  after w (fs w) (files w) evs.

(** [vaultRaftSnapshot] of the second text of part_000: the result of
    [vaultClientConfig], then the snapshot stage with the client. *)
Definition as_Part000 (config : Part000Inline.VaultConfig) : Part000.VaultConfig :=
  Part000.mkVaultConfig (Part000Inline.vaultAddr config)
    (Part000Inline.token config) (Part000Inline.snapshotPath config)
    (Part000Inline.insecure config).

Definition inline_snapshot_result (sc : Scenario)
    (config : Part000Inline.VaultConfig)
    (m : gmap string (list byte)) (l : list File) (evs : list event)
  : result (option nat * option error) :=
  match client_result sc (as_Part000 config) m l evs with
  | Ret (_, Some e) m' l' evs' => Ret (None, Some e) m' l' evs'
  | Ret (Some c, None) m' l' evs' =>
      snapshot_result sc (client_token c) (Part000Inline.snapshotPath config)
        m' l' evs'
  | Ret (None, None) m' l' evs' => Panic VNilDeref m' l' evs'
  | Exit c m' l' evs' => Exit c m' l' evs'
  | Panic v m' l' evs' => Panic v m' l' evs'
  end.

Definition Part000Inline_config (env : gmap string string) (insecure : bool)
  : Part000Inline.VaultConfig :=
  Part000Inline.mkVaultConfig (getenv env "VAULT_ADDR") (getenv env "VAULT_TOKEN")
    (getenv env "VAULT_SNAPSHOT_PATH") insecure.

Definition Part000Inline_result (sc : Scenario) (env : gmap string string)
    (disk : gmap string (list byte)) : result unit :=
  match strconv_ParseBool (getenv env "VAULT_SKIP_VERIFY") with
  | (_, Some _) =>
      Exit 1 disk [] [Fatalln (VStr "Invalid value for VAULT_SKIP_VERIFY")]
  | (insecure, None) =>
      pipeline_result sc "Failed to open snapshot file %q, %v"
        (getenv env "S3_BUCKET") (getenv env "S3_PREFIX")
        (getenv env "AWS_REGION")
        (inline_snapshot_result sc (Part000Inline_config env insecure) disk [] [])
  end.

(** * Properties of runs *)

Definition count_events (p : event -> bool) (w : World) : nat :=
  length (List.filter p (trace w)).

Definition upload_calls (w : World) : nat := count_events is_upload w.

(** A run that ends with status 0 made one upload call, under the key
    prefix-basename, with the snapshot as its body, and leaves the staging
    file on disk with the two file objects of the run closed. *)
Definition success_uploads_under_key (main : Scenario -> Go unit) : Prop :=
  forall sc env disk w,
    run (main sc) env disk = (0, w) ->
    let q := getenv env "VAULT_SNAPSHOT_PATH" in
    let size := length (snapshot_payload sc) in
    List.filter is_upload (trace w)
      = [Upload (getenv env "S3_BUCKET")
           (getenv env "S3_PREFIX" +:+ "-" +:+ filepath_Base q)
           (snapshot_payload sc)]
    /\ fs w !! q = Some (snapshot_payload sc)
    /\ files w = [mkFile q SNAPSHOT_FLAG size true; mkFile q O_RDONLY size true].

(** What the snapshot stage guarantees, for the outcome [o] of a call on
    world [w] with staging path [path]:
    - a returned file comes without an error, from a stream that
      succeeded; it is the file object the call allocated, now closed, and
      the file on disk holds the whole payload;
    - when the stream fails, no file is returned, and the file object the
      call allocated (if it got that far) is closed;
    - when the open, the stream and the close succeed, the call returns
      the file. *)
Definition snapshot_stage_spec (sc : Scenario) (w : World) (path : string)
    (o : outcome (option nat * option error)) : Prop :=
  let f := length (files w) in
  let staged size := mkFile path SNAPSHOT_FLAG size true in
  (forall g err w', o = Returns (Some g, err) w' ->
      err = None /\ g = f /\ stream_result sc = StreamOk
      /\ fs w' !! path = Some (snapshot_payload sc)
      /\ files w' = files w ++ [staged (length (snapshot_payload sc))])
  /\ (forall n e, stream_result sc = StreamError n e ->
      match o with
      | Returns (g, err) w' => g = None /\ is_Some err /\ files w' = files w
      | Exits code w' =>
          code = 1
          /\ files w' = files w ++ [staged (length (take n (snapshot_payload sc)))]
      | Panics _ _ => False
      end)
  /\ (open_denied sc path SNAPSHOT_FLAG = None -> stream_result sc = StreamOk ->
      close_error sc f = None -> exists w', o = Returns (Some f, None) w').

(** In a run, whatever is handed to the uploader is the whole snapshot of a
    stream that succeeded. *)
Definition uploads_only_complete_snapshots (main : Scenario -> Go unit) : Prop :=
  forall sc env disk bucket key body,
    In (Upload bucket key body) (trace (run (main sc) env disk).2) ->
    stream_result sc = StreamOk /\ body = snapshot_payload sc.

(** A run whose snapshot stream fails ends with status 1, has called the
    uploader zero times, and leaves no file object open. *)
Definition stream_failure_aborts (main : Scenario -> Go unit) : Prop :=
  forall sc env disk n e,
    stream_result sc = StreamError n e ->
    let r := run (main sc) env disk in
    r.1 = 1 /\ upload_calls r.2 = 0%nat /\ Forall closed (files r.2).

(** Two successful runs on the same staging path, the second on the disk
    the first left: after each the file holds the snapshot of that run. *)
Definition rerun_keeps_newest_only (main : Scenario -> Go unit) : Prop :=
  forall sc1 sc2 env disk w1 w2,
    run (main sc1) env disk = (0, w1) ->
    run (main sc2) env (fs w1) = (0, w2) ->
    let q := getenv env "VAULT_SNAPSHOT_PATH" in
    fs w1 !! q = Some (snapshot_payload sc1)
    /\ fs w2 !! q = Some (snapshot_payload sc2)
    /\ (snapshot_payload sc1 <> [] ->
        fs w2 !! q <> Some (snapshot_payload sc1 ++ snapshot_payload sc2)).

Definition last_events (evs : list event) (w : World) : Prop :=
  exists before, trace w = before ++ evs.

(** In a run: a [Close] that was called on a file object whose close the
    operating system fails ends the run with status 1, the failure
    reported last; and a run that ends with status 0 has had every one of
    its [Close] calls answered without error and leaves its two file
    objects closed. *)
Definition close_failure_is_fatal (main : Scenario -> Go unit) : Prop :=
  forall sc env disk,
    let r := run (main sc) env disk in
    let q := getenv env "VAULT_SNAPSHOT_PATH" in
    (forall f e,
        close_error sc f = Some e -> In (Close (Some f)) (trace r.2) ->
        r.1 = 1
        /\ exists e',
            last_events [close_failed; Fatalln (VErr (PathError "close" q e'))] r.2
            /\ (stream_result sc = StreamOk -> e' = e))
    /\ (r.1 = 0 ->
        (forall f, In (Close (Some f)) (trace r.2) -> close_error sc f = None)
        /\ Forall closed (files r.2) /\ length (files r.2) = 2%nat).

(** In a run whose upload call fails the process does not end with status
    0; when the call was made the status is 1, the last thing the process
    does is a [log.Fatalln], and no location was printed. *)
Definition upload_failure_is_fatal (main : Scenario -> Go unit) : Prop :=
  forall sc env disk e,
    upload_error sc = Some e ->
    let r := run (main sc) env disk in
    r.1 <> 0
    /\ (forall bucket key body,
          In (Upload bucket key body) (trace r.2) ->
          r.1 = 1
          /\ List.filter is_printf (trace r.2) = []
          /\ exists v before, trace r.2 = before ++ [Fatalln v]).

Definition true_words : list string := ["1"; "t"; "T"; "TRUE"; "true"; "True"].
Definition false_words : list string := ["0"; "f"; "F"; "FALSE"; "false"; "False"].

(** In a run, once the stream call was made and failed: [Close] was called
    twice on the staging file, the process ends in the close helper with
    the error of a file already closed, and [main] never gets to report the
    failed snapshot. *)
Definition stream_failure_ends_in_close_helper (main : Scenario -> Go unit)
  : Prop :=
  forall sc env disk n e tok,
    stream_result sc = StreamError n e ->
    let r := run (main sc) env disk in
    let q := getenv env "VAULT_SNAPSHOT_PATH" in
    In (RaftSnapshot tok) (trace r.2) ->
    r.1 = 1
    /\ count_events (is_close_of 0) r.2 = 2%nat
    /\ last_events
         [Println (VStr "Vault Raft snapshot invocation failed");
          Println (VErr e);
          Close (Some 0%nat);
          close_failed;
          Fatalln (VErr (PathError "close" q ErrClosed))] r.2
    /\ ~ In (Fatalln (VStr "Vault Raft Snapshot failed")) (trace r.2).

Definition is_stream (e : event) : bool :=
  match e with RaftSnapshot _ => true | _ => false end.

Definition is_login (e : event) : bool :=
  match e with Login => true | _ => false end.

Definition is_open (e : event) : bool :=
  match e with OpenFile _ _ => true | _ => false end.

(** Output, as opposed to a call to a collaborator. *)
Definition is_output (e : event) : bool :=
  match e with Println _ | Printf _ _ | Fatalln _ => true | _ => false end.

(** The calls of a run to its collaborators, in order. *)
Definition calls (w : World) : list event :=
  List.filter (fun e => negb (is_output e)) (trace w).

(** No run leaves a file object open, however it ends. *)
Definition never_leaks_file_objects (main : Scenario -> Go unit) : Prop :=
  forall sc env disk, Forall closed (files (run (main sc) env disk).2).



(** No retry: in a run each collaborator is called at most once, and a file
    is opened at most twice (once to write, once to read). *)
Definition calls_at_most_once (main : Scenario -> Go unit) : Prop :=
  forall sc env disk,
    let w := (run (main sc) env disk).2 in
    (count_events is_login w <= 1)%nat
    /\ (count_events is_stream w <= 1)%nat
    /\ (upload_calls w <= 1)%nat
    /\ (count_events is_open w <= 2)%nat.

Definition uploaded_message : string :=
  "Vault Raft snapshot uploaded to, %s" +:+ newline.

(** How a run ends, by its exit status: 0, the location was printed last;
    1, a [log.Fatalln] was the last thing done; 2, the AWS session could
    not be created ([session.Must] panicked) and the deferred close of the
    file opened for the upload was the last thing done. *)
Definition ends_as_status_says (main : Scenario -> Go unit) : Prop :=
  forall sc env disk,
    let r := run (main sc) env disk in
    (r.1 = 0
     /\ exists before loc,
         trace r.2 = before ++ [Printf uploaded_message [VStr loc]])
    \/ (r.1 = 1 /\ exists before v, trace r.2 = before ++ [Fatalln v])
    \/ (r.1 = 2 /\ is_Some (session_error sc)
        /\ exists before, trace r.2 = before ++ [Close (Some 1%nat)]).

(** The answers with which the transfer of the file at [q] goes through. *)
Definition transfer_ok (sc : Scenario) (q : string) : Prop :=
  open_denied sc q SNAPSHOT_FLAG = None /\ stream_result sc = StreamOk
  /\ close_error sc 0 = None /\ open_denied sc q O_RDONLY = None
  /\ session_error sc = None /\ upload_error sc = None
  /\ close_error sc 1 = None.

(** The client holds token [tok] after an authentication that succeeded. *)
Definition authenticated (sc : Scenario) (credential tok : string) : Prop :=
  if String.eqb credential "aws-iam"
  then awsauth_error sc = None /\ login_result sc = LoginOk tok
  else tok = credential /\ len credential = 26.

Definition MainGo_ok (sc : Scenario) (env : gmap string string) : Prop :=
  client_error sc = None /\ len (getenv env "VAULT_TOKEN") = 26
  /\ transfer_ok sc (getenv env "VAULT_SNAPSHOT_PATH").

Definition Part000_ok (sc : Scenario) (env : gmap string string) : Prop :=
  (strconv_ParseBool (getenv env "VAULT_SKIP_VERIFY")).2 = None
  /\ tls_error sc = None /\ client_error sc = None
  /\ (exists tok, authenticated sc (getenv env "VAULT_TOKEN") tok)
  /\ transfer_ok sc (getenv env "VAULT_SNAPSHOT_PATH").

(** A run ends with status 0 exactly when every answer it depends on is a
    success, and then the location it prints is the one the object store
    returned for the bucket and the key. *)
Definition succeeds_exactly_when (main : Scenario -> Go unit)
    (ok : Scenario -> gmap string string -> Prop) : Prop :=
  forall sc env disk,
    let r := run (main sc) env disk in
    let key := getenv env "S3_PREFIX" +:+ "-"
               +:+ filepath_Base (getenv env "VAULT_SNAPSHOT_PATH") in
    (r.1 = 0 <-> ok sc env)
    /\ (r.1 = 0 ->
        last_events
          [Printf uploaded_message
             [VStr (upload_location sc (getenv env "S3_BUCKET") key)]] r.2).

(** In a run of a program with [vaultClientConfig]'s authentication, the
    snapshot is asked for, and the staging file opened, only after the TLS
    configuration, the client construction and the authentication
    succeeded; the snapshot call carries the token of that authentication. *)
Definition snapshot_needs_authentication (main : Scenario -> Go unit) : Prop :=
  forall sc env disk,
    let w := (run (main sc) env disk).2 in
    let credential := getenv env "VAULT_TOKEN" in
    (forall tok, In (RaftSnapshot tok) (trace w) ->
        tls_error sc = None /\ client_error sc = None
        /\ authenticated sc credential tok)
    /\ (forall p flag, In (OpenFile p flag) (trace w) ->
        p = getenv env "VAULT_SNAPSHOT_PATH"
        /\ tls_error sc = None /\ client_error sc = None
        /\ exists tok, authenticated sc credential tok).

(** After a run whose stream call was made and failed, the staging file
    holds what was written before the failure and nothing of what it held
    before the run. *)
Definition failed_stream_leaves_partial_file (main : Scenario -> Go unit)
  : Prop :=
  forall sc env disk n e tok,
    stream_result sc = StreamError n e ->
    In (RaftSnapshot tok) (trace (run (main sc) env disk).2) ->
    fs (run (main sc) env disk).2 !! getenv env "VAULT_SNAPSHOT_PATH"
    = Some (take n (snapshot_payload sc)).

(** In a run the open for the upload fails only when the operating system
    refuses it: the file is never missing, the snapshot stage has just
    created it. *)
Definition upload_never_misses_file (main : Scenario -> Go unit) : Prop :=
  forall sc env disk format p err,
    In (Printf format [VStr p; VErr err]) (trace (run (main sc) env disk).2) ->
    p = getenv env "VAULT_SNAPSHOT_PATH"
    /\ exists e, open_denied sc p O_RDONLY = Some e
                 /\ err = PathError "open" p e.

(** The keys of the upload calls of a run. *)
Definition upload_keys (w : World) : list string :=
  flat_map (fun e => match e with Upload _ key _ => [key] | _ => [] end)
    (trace w).

(** Two successful runs with the same prefix upload under the same key
    exactly when their staging paths have the same base name. *)
Definition key_follows_base_name (main : Scenario -> Go unit) : Prop :=
  forall sc1 sc2 env1 env2 disk1 disk2 w1 w2,
    run (main sc1) env1 disk1 = (0, w1) ->
    run (main sc2) env2 disk2 = (0, w2) ->
    getenv env1 "S3_PREFIX" = getenv env2 "S3_PREFIX" ->
    (upload_keys w1 = upload_keys w2
     <-> filepath_Base (getenv env1 "VAULT_SNAPSHOT_PATH")
         = filepath_Base (getenv env2 "VAULT_SNAPSHOT_PATH")).



(** Go's convention for a result and an error: the result is [nil] exactly
    when the error is not. *)
Definition nil_exactly_on_error {A} (o : outcome (option A * option error))
  : Prop :=
  match o with
  | Returns (r, err) _ => r = None <-> is_Some err
  | _ => True
  end.

(** * Scenarios and environments used as examples *)

Definition token26 : string := "s.ABCDEFGHIJKLMNOPQRSTUVWX".

Definition demo_payload : list byte := [Byte.x01; Byte.x02; Byte.x03].

Definition sc_ok : Scenario :=
  {| tls_error := None; client_error := None; awsauth_error := None;
     login_result := LoginOk token26;
     open_denied := fun _ _ => None;
     snapshot_payload := demo_payload;
     stream_result := StreamOk;
     close_error := fun _ => None;
     session_error := None; upload_error := None;
     upload_location := fun b k => "https://" +:+ b +:+ ".s3.amazonaws.com/" +:+ k |}.

Definition with_stream (r : StreamResult) (sc : Scenario) : Scenario :=
  mkScenario (tls_error sc) (client_error sc) (awsauth_error sc)
    (login_result sc) (open_denied sc) (snapshot_payload sc) r
    (close_error sc) (session_error sc) (upload_error sc) (upload_location sc).

Definition with_close_error (f : nat) (e : error) (sc : Scenario) : Scenario :=
  mkScenario (tls_error sc) (client_error sc) (awsauth_error sc)
    (login_result sc) (open_denied sc) (snapshot_payload sc) (stream_result sc)
    (fun i => if Nat.eqb i f then Some e else close_error sc i)
    (session_error sc) (upload_error sc) (upload_location sc).

Definition with_upload_error (e : error) (sc : Scenario) : Scenario :=
  mkScenario (tls_error sc) (client_error sc) (awsauth_error sc)
    (login_result sc) (open_denied sc) (snapshot_payload sc) (stream_result sc)
    (close_error sc) (session_error sc) (Some e) (upload_location sc).

Definition with_login (r : LoginResult) (sc : Scenario) : Scenario :=
  mkScenario (tls_error sc) (client_error sc) (awsauth_error sc)
    r (open_denied sc) (snapshot_payload sc) (stream_result sc)
    (close_error sc) (session_error sc) (upload_error sc) (upload_location sc).

Definition with_payload (p : list byte) (sc : Scenario) : Scenario :=
  mkScenario (tls_error sc) (client_error sc) (awsauth_error sc)
    (login_result sc) (open_denied sc) p (stream_result sc)
    (close_error sc) (session_error sc) (upload_error sc) (upload_location sc).

Definition env_with (credential skip : string) : gmap string string :=
  list_to_map [("VAULT_ADDR", "https://vault:8200");
               ("VAULT_TOKEN", credential);
               ("VAULT_SKIP_VERIFY", skip);
               ("VAULT_SNAPSHOT_PATH", "/tmp/snap.out");
               ("S3_BUCKET", "backups"); ("S3_PREFIX", "nightly");
               ("AWS_REGION", "us-east-1")].

Definition empty_disk : gmap string (list byte) := ∅.
Definition no_env : gmap string string := ∅.

Definition env_ok : gmap string string :=
  env_with token26 "false".

Definition vault_demo (credential : string) : Part000.VaultConfig :=
  Part000.mkVaultConfig "https://vault:8200" credential "/tmp/snap.out" false.

Definition vault_demo_main (credential : string) : MainGo.VaultConfig :=
  MainGo.mkVaultConfig "https://vault:8200" credential "/tmp/snap.out".

Definition sc_older : Scenario :=
  with_payload [Byte.x0a; Byte.x0b; Byte.x0c; Byte.x0d] sc_ok.

Definition sc_stream_fails : Scenario :=
  with_stream (StreamError 2 (External "unexpected EOF")) sc_ok.


Definition sc_close_fails : Scenario :=
  with_close_error 0 (External "input/output error") sc_ok.

Definition sc_upload_fails : Scenario :=
  with_upload_error (External "AccessDenied") sc_ok.

Definition disk_with_other : gmap string (list byte) :=
  <["/tmp/other" := [Byte.x0a]]> empty_disk.

Definition env_at (path : string) : gmap string string :=
  list_to_map [("VAULT_ADDR", "https://vault:8200");
               ("VAULT_TOKEN", token26);
               ("VAULT_SKIP_VERIFY", "false");
               ("VAULT_SNAPSHOT_PATH", path);
               ("S3_BUCKET", "backups"); ("S3_PREFIX", "nightly");
               ("AWS_REGION", "us-east-1")].

Definition env_iam : gmap string string := env_with "aws-iam" "true".

Definition sc_creation_refused : Scenario :=
  mkScenario (tls_error sc_ok) (client_error sc_ok) (awsauth_error sc_ok)
    (login_result sc_ok) (fun _ _ => Some (External "permission denied"))
    (snapshot_payload sc_ok) (stream_result sc_ok)
    (close_error sc_ok) (session_error sc_ok) (upload_error sc_ok)
    (upload_location sc_ok).

Definition demo_client : Client :=
  mkClient (mkConfig "https://vault:8200" false) token26.

Definition aws_demo : MainGo.AWSConfig :=
  MainGo.mkAWSConfig "backups" "nightly" "us-east-1".

Definition sc_read_refused : Scenario :=
  mkScenario (tls_error sc_ok) (client_error sc_ok) (awsauth_error sc_ok)
    (login_result sc_ok)
    (fun _ flag => if flag =? O_RDONLY
                   then Some (External "permission denied") else None)
    (snapshot_payload sc_ok) (stream_result sc_ok)
    (close_error sc_ok) (session_error sc_ok) (upload_error sc_ok)
    (upload_location sc_ok).

(** * The library model at work *)

Example filepath_Base_examples :
  filepath_Base "/tmp/snap.out" = "snap.out"
  /\ filepath_Base "snap.out" = "snap.out"
  /\ filepath_Base "/var/backups/" = "backups"
  /\ filepath_Base "" = "."
  /\ filepath_Base "///" = "/".
Proof. repeat split. Qed.

Lemma last_element_no_separator (s : string) :
  has_separator (last_element s) = false.
Proof.
  induction s as [|c r IH]; [reflexivity|]. cbn [last_element].
  destruct (has_separator r) eqn:Hr; [exact IH|].
  destruct (IsPathSeparator c) eqn:Hc; [exact Hr|].
  cbn [has_separator]. by rewrite Hc, Hr.
Qed.

(** A base name holds no separator, unless it is the root. *)
Lemma filepath_Base_no_separator (path : string) :
  has_separator (filepath_Base path) = true -> filepath_Base path = "/".
Proof.
  unfold filepath_Base. destruct (path =? "")%string; [discriminate|].
  destruct (last_element (strip_trailing path) =? "")%string eqn:E; [done|].
  by rewrite last_element_no_separator.
Qed.

Example strconv_ParseBool_examples :
  strconv_ParseBool "true" = (true, None)
  /\ strconv_ParseBool "0" = (false, None)
  /\ strconv_ParseBool "" = (false, Some (NumError "ParseBool" ""))
  /\ strconv_ParseBool "yes" = (false, Some (NumError "ParseBool" "yes")).
Proof. repeat split. Qed.

Example SNAPSHOT_FLAG_value :
  SNAPSHOT_FLAG = 577
  /\ has_flag SNAPSHOT_FLAG O_CREATE = true
  /\ has_flag SNAPSHOT_FLAG O_TRUNC = true
  /\ writable SNAPSHOT_FLAG = true /\ readable SNAPSHOT_FLAG = false
  /\ readable O_RDONLY = true /\ writable O_RDONLY = false.
Proof. repeat split. Qed.

(** Closing twice: whatever the first [Close] of a file object returns,
    the second returns the error of a closed file and changes nothing. *)
Lemma File_Close_twice (sc : Scenario) (i : nat) (h : File) (w : World) :
  files w !! i = Some h ->
  exists r w1,
    File_Close sc (Some i) w = Returns r w1
    /\ File_Close sc (Some i) w1
       = Returns (Some (PathError "close" (file_name h) ErrClosed))
           (emit (Close (Some i)) w1).
Proof.
  intros Hi. unfold File_Close, deref. cbn. rewrite Hi. cbn.
  destruct (file_closed h) eqn:Hc.
  - do 2 eexists. split; [reflexivity|]. cbn. rewrite Hi. cbn. by rewrite Hc.
  - do 2 eexists. split; [reflexivity|]. cbn.
    rewrite list_lookup_insert_eq by (by eapply lookup_lt_Some). reflexivity.
Qed.

(** * Evaluating the program *)

Lemma after_id (w : World) : after w (fs w) (files w) [] = w.
Proof. destruct w. unfold after. cbn. by rewrite app_nil_r. Qed.

Lemma initial_world_after env disk :
  initial_world env disk = after (initial_world env disk) disk [] [].
Proof. reflexivity. Qed.

Lemma bind_eq {A B} (m : Go A) (k : A -> Go B) (w : World) :
  (m ≫= k) w =
  match m w with
  | Returns a w1 => k a w1
  | Exits c w1 => Exits c w1
  | Panics v w1 => Panics v w1
  end.
Proof. reflexivity. Qed.

Lemma ret_eq {A} (a : A) (w : World) : (mret a : Go A) w = Returns a w.
Proof. reflexivity. Qed.

Lemma deref_last (l : list File) (h : File) w m evs :
  deref (Some (length l)) (after w m (l ++ [h]) evs) = Some (length l, h).
Proof.
  unfold deref, after. cbn. rewrite lookup_app_r by lia.
  replace (length l - length l)%nat with 0%nat by lia. reflexivity.
Qed.

Lemma insert_last (l : list File) (h h' : File) :
  <[length l := h']> (l ++ [h]) = l ++ [h'].
Proof.
  rewrite insert_app_r_alt by lia.
  replace (length l - length l)%nat with 0%nat by lia. reflexivity.
Qed.

Lemma write_at_empty (data : list byte) : write_at 0 data [] = data.
Proof. unfold write_at. cbn. rewrite drop_nil. apply app_nil_r. Qed.

Section Primitives.
Variable sc : Scenario.
Implicit Types (w : World) (m : gmap string (list byte)) (l : list File)
               (evs : list event).

Lemma emit_after w m l evs e : emit e (after w m l evs) = after w m l (evs ++ [e]).
Proof. unfold emit, after. cbn. by rewrite app_assoc. Qed.

Lemma do_emit_after w m l evs e :
  do_emit e (after w m l evs) = Returns tt (after w m l (evs ++ [e])).
Proof. unfold do_emit. by rewrite emit_after. Qed.

Lemma fmt_Println_after w m l evs v :
  fmt_Println v (after w m l evs) = Returns tt (after w m l (evs ++ [Println v])).
Proof. apply do_emit_after. Qed.

Lemma fmt_Printf_after w m l evs f args :
  fmt_Printf f args (after w m l evs)
  = Returns tt (after w m l (evs ++ [Printf f args])).
Proof. apply do_emit_after. Qed.

Lemma log_Fatalln_after {A} w m l evs v :
  @log_Fatalln A v (after w m l evs) = Exits 1 (after w m l (evs ++ [Fatalln v])).
Proof. unfold log_Fatalln. by rewrite emit_after. Qed.

Lemma os_Getenv_after w m l evs key :
  os_Getenv key (after w m l evs)
  = Returns (getenv (environ w) key) (after w m l evs).
Proof. reflexivity. Qed.

Lemma os_OpenFile_create_trunc w m l evs name flag perm :
  has_flag flag O_CREATE = true -> has_flag flag O_TRUNC = true ->
  os_OpenFile sc name flag perm (after w m l evs) =
  match open_denied sc name flag with
  | Some e => Returns (None, Some (PathError "open" name e))
                (after w m l (evs ++ [OpenFile name flag]))
  | None => Returns (Some (length l), None)
              (after w (<[name := []]> m) (l ++ [mkFile name flag 0 false])
                 (evs ++ [OpenFile name flag]))
  end.
Proof.
  intros Hc Ht. unfold os_OpenFile. rewrite emit_after, Hc, Ht.
  destruct (open_denied sc name flag); [reflexivity|].
  cbn. destruct (m !! name); reflexivity.
Qed.

Lemma os_Open_after w m l evs name :
  os_Open sc name (after w m l evs) =
  match open_denied sc name O_RDONLY with
  | Some e => Returns (None, Some (PathError "open" name e))
                (after w m l (evs ++ [OpenFile name O_RDONLY]))
  | None =>
      match m !! name with
      | None => Returns (None, Some (PathError "open" name ENOENT))
                  (after w m l (evs ++ [OpenFile name O_RDONLY]))
      | Some _ => Returns (Some (length l), None)
                    (after w m (l ++ [mkFile name O_RDONLY 0 false])
                       (evs ++ [OpenFile name O_RDONLY]))
      end
  end.
Proof.
  unfold os_Open, os_OpenFile. rewrite emit_after.
  destruct (open_denied sc name O_RDONLY); [reflexivity|].
  cbn. destruct (m !! name); reflexivity.
Qed.

Lemma File_Name_last w m l evs h :
  File_Name (Some (length l)) (after w m (l ++ [h]) evs)
  = Returns (file_name h) (after w m (l ++ [h]) evs).
Proof. unfold File_Name. by rewrite deref_last. Qed.

Lemma File_Close_last_open w m l evs name flag off :
  File_Close sc (Some (length l))
    (after w m (l ++ [mkFile name flag off false]) evs) =
  Returns (PathError "close" name <$> close_error sc (length l))
    (after w m (l ++ [mkFile name flag off true])
       (evs ++ [Close (Some (length l))])).
Proof.
  unfold File_Close. rewrite emit_after, deref_last. cbn.
  unfold set_files, after. cbn. by rewrite insert_last.
Qed.

Lemma File_Close_last_closed w m l evs name flag off :
  File_Close sc (Some (length l))
    (after w m (l ++ [mkFile name flag off true]) evs) =
  Returns (Some (PathError "close" name ErrClosed))
    (after w m (l ++ [mkFile name flag off true])
       (evs ++ [Close (Some (length l))])).
Proof. unfold File_Close. by rewrite emit_after, deref_last. Qed.

Lemma File_Write_last w m l evs name flag off data :
  writable flag = true ->
  File_Write (Some (length l)) data
    (after w m (l ++ [mkFile name flag off false]) evs) =
  Returns None
    (after w (<[name := write_at off data (default [] (m !! name))]> m)
       (l ++ [mkFile name flag (off + length data) false]) evs).
Proof.
  intros Hw. unfold File_Write. rewrite deref_last. cbn. rewrite Hw. cbn.
  unfold set_files, set_fs, after. cbn. by rewrite insert_last.
Qed.

Lemma File_ReadAll_last w m l evs name flag off :
  readable flag = true ->
  File_ReadAll (Some (length l))
    (after w m (l ++ [mkFile name flag off false]) evs) =
  Returns (drop off (default [] (m !! name)), None)
    (after w m
       (l ++ [mkFile name flag (max off (length (default [] (m !! name)))) false])
       evs).
Proof.
  intros Hr. unfold File_ReadAll. rewrite deref_last. cbn. rewrite Hr. cbn.
  unfold set_files, after. cbn. by rewrite insert_last.
Qed.

End Primitives.

(** Putting the events of a world in one list. *)
Ltac trace_norm := repeat rewrite <- app_assoc; cbn [app].

(** One step of evaluation on a world of the form [after w m l evs]. *)
Ltac go_prim :=
  first
    [ rewrite do_emit_after
    | rewrite fmt_Println_after
    | rewrite fmt_Printf_after
    | rewrite log_Fatalln_after
    | rewrite os_Getenv_after
    | rewrite os_OpenFile_create_trunc by reflexivity
    | rewrite os_Open_after
    | rewrite File_Name_last
    | rewrite File_Close_last_open
    | rewrite File_Close_last_closed
    | rewrite File_Write_last by reflexivity
    | rewrite File_ReadAll_last by reflexivity ].

Ltac go_eval :=
  repeat first
    [ progress cbv beta iota zeta
    | rewrite bind_eq
    | rewrite ret_eq
    | go_prim
    | progress cbn [fmap option_fmap option_map fst snd Nat.add Nat.max] ].

(** ** The collaborators' calls *)

Section Collaborators.
Variable sc : Scenario.
Implicit Types (w : World) (m : gmap string (list byte)) (l : list File)
               (evs : list event).

Lemma Config_ConfigureTLS_after w m l evs c insecure :
  Config_ConfigureTLS sc c insecure (after w m l evs) =
  Returns (match tls_error sc with
           | Some e => (c, Some e)
           | None => (mkConfig (Address c) insecure, None)
           end)
    (after w m l (evs ++ [ConfigureTLS insecure])).
Proof.
  unfold Config_ConfigureTLS. go_eval. destruct (tls_error sc); reflexivity.
Qed.

Lemma api_NewClient_after w m l evs c :
  api_NewClient sc c (after w m l evs) =
  Returns (match client_error sc with
           | Some e => (None, Some e)
           | None => (Some (mkClient c (getenv (environ w) "VAULT_TOKEN")), None)
           end)
    (after w m l (evs ++ [NewClient (Address c)])).
Proof.
  unfold api_NewClient. go_eval. destruct (client_error sc); go_eval; reflexivity.
Qed.

Lemma Client_SetToken_after w m l evs c v :
  Client_SetToken (Some c) v (after w m l evs) =
  Returns (Some (mkClient (client_config c) v))
    (after w m l (evs ++ [SetToken v])).
Proof. unfold Client_SetToken. go_eval. reflexivity. Qed.

Lemma auth_NewAWSAuth_after w m l evs :
  auth_NewAWSAuth sc (after w m l evs) =
  Returns (match awsauth_error sc with
           | Some e => (None, Some e)
           | None => (Some tt, None)
           end)
    (after w m l (evs ++ [NewAWSAuth])).
Proof.
  unfold auth_NewAWSAuth. go_eval. destruct (awsauth_error sc); reflexivity.
Qed.

Lemma Auth_Login_after w m l evs c a :
  Auth_Login sc (Some c) a (after w m l evs) =
  Returns (match login_result sc with
           | LoginError e => (Some c, None, Some e)
           | LoginNoAuthInfo => (Some c, None, None)
           | LoginOk tok => (Some (mkClient (client_config c) tok), Some tok, None)
           end)
    (after w m l (evs ++ [Login])).
Proof.
  unfold Auth_Login. go_eval. destruct (login_result sc); reflexivity.
Qed.

Lemma Sys_RaftSnapshot_last w m l evs c name flag off :
  writable flag = true ->
  Sys_RaftSnapshot sc (Some c) (Some (length l))
    (after w m (l ++ [mkFile name flag off false]) evs) =
  let sent := match stream_result sc with
              | StreamOk => snapshot_payload sc
              | StreamError n _ => take n (snapshot_payload sc)
              end in
  Returns (match stream_result sc with
           | StreamOk => None
           | StreamError _ e => Some e
           end)
    (after w (<[name := write_at off sent (default [] (m !! name))]> m)
       (l ++ [mkFile name flag (off + length sent) false])
       (evs ++ [RaftSnapshot (client_token c)])).
Proof.
  intros Hw. unfold Sys_RaftSnapshot. go_eval.
  destruct (stream_result sc); go_eval; rewrite File_Write_last by done;
    reflexivity.
Qed.

Lemma session_NewSession_after w m l evs region :
  session_NewSession sc region (after w m l evs) =
  Returns (match session_error sc with
           | Some e => (None, Some e)
           | None => (Some (mkSession region), None)
           end)
    (after w m l (evs ++ [NewSession region])).
Proof.
  unfold session_NewSession. go_eval. destruct (session_error sc); reflexivity.
Qed.

Lemma Uploader_Upload_last w m l evs u bucket key name flag off :
  readable flag = true ->
  Uploader_Upload sc u bucket key (Some (length l))
    (after w m (l ++ [mkFile name flag off false]) evs) =
  let content := default [] (m !! name) in
  Returns (match upload_error sc with
           | Some e => (None, Some e)
           | None => (Some (mkUploadOutput (upload_location sc bucket key)), None)
           end)
    (after w m (l ++ [mkFile name flag (max off (length content)) false])
       (evs ++ [Upload bucket key (drop off content)])).
Proof.
  intros Hr. unfold Uploader_Upload. rewrite bind_eq, File_ReadAll_last by done.
  go_eval. destruct (upload_error sc); reflexivity.
Qed.

End Collaborators.

Ltac go_call :=
  first
    [ rewrite Config_ConfigureTLS_after
    | rewrite api_NewClient_after
    | rewrite Client_SetToken_after
    | rewrite auth_NewAWSAuth_after
    | rewrite Auth_Login_after
    | rewrite Sys_RaftSnapshot_last by reflexivity
    | rewrite session_NewSession_after
    | rewrite Uploader_Upload_last by reflexivity ].

Ltac go_run := repeat first [ progress go_eval | go_call ].

(** ** The stages *)

Section Stages.
Variable sc : Scenario.
Implicit Types (w : World) (m : gmap string (list byte)) (l : list File)
               (evs : list event).

Lemma snapshot_content (m : gmap string (list byte)) path (data : list byte) :
  <[path := write_at 0 data (default [] (<[path := []]> m !! path))]>
    (<[path := []]> m) = <[path := data]> m.
Proof.
  rewrite lookup_insert_eq.
  change (default [] (Some [])) with (@nil byte).
  rewrite write_at_empty. apply insert_insert_eq.
Qed.

Lemma Part000_vaultRaftSnapshot_eval w m l evs c path :
  Part000.vaultRaftSnapshot sc (Some c) path (after w m l evs)
  = outcome_of w (snapshot_result sc (client_token c) path m l evs).
Proof.
  unfold Part000.vaultRaftSnapshot, snapshot_result, Part000.snapshotFileClose,
    defer, close_failed.
  go_run. fold SNAPSHOT_FLAG.
  destruct (open_denied sc path SNAPSHOT_FLAG) as [e|]; go_run.
  { trace_norm. reflexivity. }
  rewrite snapshot_content.
  destruct (stream_result sc) as [|n e]; go_run.
  - destruct (close_error sc (length l)); go_run; trace_norm; reflexivity.
  - trace_norm. reflexivity.
Qed.

Lemma MainGo_vaultRaftSnapshot_eval w m l evs config :
  MainGo.vaultRaftSnapshot sc config (after w m l evs)
  = outcome_of w (guarded_snapshot_result sc config m l evs).
Proof.
  unfold MainGo.vaultRaftSnapshot, guarded_snapshot_result.
  rewrite bind_eq, api_NewClient_after.
  destruct (client_error sc); cbv beta iota zeta.
  { go_run. trace_norm. reflexivity. }
  destruct (negb (len (MainGo.token config) =? 26)).
  { reflexivity. }
  rewrite bind_eq, Client_SetToken_after. cbv beta iota. trace_norm.
  exact (Part000_vaultRaftSnapshot_eval w m l _
           (mkClient (mkConfig (MainGo.vaultAddr config) false)
              (MainGo.token config))
           (MainGo.snapshotPath config)).
Qed.

Lemma Part000_vaultClientConfig_eval w m l evs config :
  Part000.vaultClientConfig sc config (after w m l evs)
  = outcome_of w (client_result sc config m l evs).
Proof.
  unfold Part000.vaultClientConfig, client_result. go_run.
  destruct (tls_error sc); go_run.
  { trace_norm. reflexivity. }
  destruct (client_error sc); go_run.
  { trace_norm. reflexivity. }
  destruct (Part000.token config =? "aws-iam")%string; go_run.
  - destruct (awsauth_error sc); go_run.
    { trace_norm. reflexivity. }
    destruct (login_result sc); go_run; trace_norm; reflexivity.
  - destruct (negb (len (Part000.token config) =? 26)); go_run;
      trace_norm; reflexivity.
Qed.

Ltac upload_eval Hq :=
  unfold upload_result, defer, close_failed, session_Must,
    s3manager_NewUploader;
  go_run;
  match goal with
  | |- context [open_denied sc ?q O_RDONLY] =>
      destruct (open_denied sc q O_RDONLY) as [?|]; go_run;
      [ trace_norm; reflexivity | ];
      match goal with
      | |- context [?m !! q] =>
          destruct (m !! q) as [?|] eqn:Hq; go_run;
          [ | trace_norm; reflexivity ]
      end
  end;
  destruct (session_error sc) as [?|]; go_run;
  [ match goal with
    | |- context [close_error sc ?f] =>
        destruct (close_error sc f); go_run; trace_norm; reflexivity
    end | ];
  rewrite Hq; cbn [default from_option id drop];
  destruct (upload_error sc) as [?|]; go_run;
  match goal with
  | |- context [close_error sc ?f] =>
      destruct (close_error sc f); go_run; trace_norm; reflexivity
  end.

Lemma Part000_snapshotS3Upload_eval w m l evs config q :
  Part000.snapshotS3Upload sc config q (after w m l evs)
  = outcome_of w
      (upload_result sc "Failed to open snapshot file %q: %v"
         (Part000.s3Bucket config) (Part000.s3Prefix config)
         (Part000.s3Region config) q m l evs).
Proof.
  unfold Part000.snapshotS3Upload, Part000.snapshotFileClose.
  upload_eval Hq.
Qed.

Lemma MainGo_snapshotS3Upload_eval w m l evs config q :
  MainGo.snapshotS3Upload sc config q (after w m l evs)
  = outcome_of w
      (upload_result sc "Failed to open snapshot file %q, %v"
         (MainGo.s3Bucket config) (MainGo.s3Prefix config)
         (MainGo.s3Region config) q m l evs).
Proof.
  unfold MainGo.snapshotS3Upload, MainGo.snapshotFileClose.
  upload_eval Hq.
Qed.

End Stages.

(** ** A whole run *)

Lemma run_outcome_of (main : Go unit) env disk (r : result unit) :
  main (initial_world env disk) = outcome_of (initial_world env disk) r ->
  run main env disk = (exit_status r, final_world env r).
Proof. intros E. unfold run. rewrite E. destruct r; reflexivity. Qed.

Lemma File_Name_after w m l evs f :
  File_Name f (after w m l evs) =
  match f ≫= (l !!.) with
  | Some h => Returns (file_name h) (after w m l evs)
  | None => Panics VNilDeref (after w m l evs)
  end.
Proof.
  unfold File_Name, deref. destruct f as [i|]; [|reflexivity].
  cbn. destruct (l !! i); reflexivity.
Qed.

Lemma client_result_client sc config m l evs m' l' evs' :
  client_result sc config m l evs <> Ret (None, None) m' l' evs'.
Proof.
  unfold client_result. repeat case_match; congruence.
Qed.

(** The part of [main] after the snapshot call is the same in both
    programs: it is evaluated once, for any result of the snapshot call. *)
Ltac pipeline_eval upload_lemma :=
  unfold pipeline_result;
  match goal with
  | |- context [outcome_of _ ?r] =>
      destruct r as [[f [e|]] m l evs|c m l evs|v m l evs]
  end;
  cbn [outcome_of]; go_run; try (trace_norm; reflexivity);
  rewrite File_Name_after;
  match goal with
  | |- context [match ?x with Some _ => _ | None => _ end] =>
      destruct x; [|reflexivity]
  end;
  go_run; rewrite upload_lemma;
  cbn [MainGo.s3Bucket MainGo.s3Prefix MainGo.s3Region
       Part000.s3Bucket Part000.s3Prefix Part000.s3Region];
  match goal with
  | |- context [outcome_of _ ?r] =>
      destruct r as [[[o|] [e|]] m' l' evs'|c m' l' evs'|v m' l' evs']
  end;
  cbn [outcome_of]; unfold UploadOutput_Location; go_run;
  try (trace_norm; reflexivity); reflexivity.

Lemma MainGo_run sc env disk :
  run (MainGo.main sc) env disk
  = (exit_status (MainGo_result sc env disk),
     final_world env (MainGo_result sc env disk)).
Proof.
  apply run_outcome_of.
  unfold MainGo.main, MainGo_result. rewrite initial_world_after at 1.
  go_run. rewrite MainGo_vaultRaftSnapshot_eval.
  cbn [environ initial_world MainGo.snapshotPath MainGo.s3Bucket
       MainGo.s3Prefix MainGo.s3Region].
  fold (MainGo_config env).
  pipeline_eval MainGo_snapshotS3Upload_eval.
Qed.

Lemma Part000_run sc env disk :
  run (Part000.main sc) env disk
  = (exit_status (Part000_result sc env disk),
     final_world env (Part000_result sc env disk)).
Proof.
  apply run_outcome_of.
  unfold Part000.main, Part000_result. rewrite initial_world_after at 1.
  go_run. cbn [environ initial_world].
  destruct (strconv_ParseBool (getenv env "VAULT_SKIP_VERIFY"))
    as [insecure [e|]]; go_run; [reflexivity|].
  rewrite Part000_vaultClientConfig_eval.
  cbn [environ initial_world]. fold (Part000_config env insecure).
  destruct (client_result sc (Part000_config env insecure) disk [] [])
    as [[[cl|] [e0|]] m0 l0 evs0|c0 m0 l0 evs0|v0 m0 l0 evs0] eqn:E;
    cbn [outcome_of]; go_run; try reflexivity;
    try (exfalso; eapply client_result_client; eassumption).
  rewrite Part000_vaultRaftSnapshot_eval.
  cbn [Part000.snapshotPath Part000_config].
  pipeline_eval Part000_snapshotS3Upload_eval.
Qed.

(** * Properties of a run *)

(** Case analysis on the answers a result depends on. *)
Ltac innermost_case :=
  match goal with
  | H : ?x = _ |- context [match ?x with _ => _ end] => rewrite H
  | |- context [match ?x with _ => _ end] =>
      lazymatch x with
      | context [match _ with _ => _ end] => fail
      | _ => destruct x eqn:?
      end
  end.

Ltac result_simpl :=
  cbn [exit_status final_world fst snd trace files fs environ
       mbind option_bind lookup list_lookup length app
       file_name file_closed file_flag file_offset
       MainGo_config Part000_config
       MainGo.vaultAddr MainGo.token MainGo.snapshotPath
       Part000.vaultAddr Part000.token Part000.snapshotPath Part000.insecure
       List.filter is_upload is_printf is_network_call is_close_of Nat.eqb
       upload_calls count_events Location client_token client_config].

Ltac result_cases :=
  unfold MainGo_result, Part000_result, pipeline_result,
    guarded_snapshot_result, snapshot_result, upload_result, client_result,
    close_failed;
  repeat first
    [ progress result_simpl
    | rewrite lookup_insert_eq
    | innermost_case ].

Lemma MainGo_snapshotS3Upload_at sc config q w :
  MainGo.snapshotS3Upload sc config q w
  = outcome_of w
      (upload_result sc "Failed to open snapshot file %q, %v"
         (MainGo.s3Bucket config) (MainGo.s3Prefix config)
         (MainGo.s3Region config) q (fs w) (files w) []).
Proof. rewrite <- MainGo_snapshotS3Upload_eval. by rewrite after_id. Qed.

Lemma Part000_snapshotS3Upload_at sc config q w :
  Part000.snapshotS3Upload sc config q w
  = outcome_of w
      (upload_result sc "Failed to open snapshot file %q: %v"
         (Part000.s3Bucket config) (Part000.s3Prefix config)
         (Part000.s3Region config) q (fs w) (files w) []).
Proof. rewrite <- Part000_snapshotS3Upload_eval. by rewrite after_id. Qed.

Lemma MainGo_vaultRaftSnapshot_at sc config w :
  MainGo.vaultRaftSnapshot sc config w
  = outcome_of w (guarded_snapshot_result sc config (fs w) (files w) []).
Proof. rewrite <- MainGo_vaultRaftSnapshot_eval. by rewrite after_id. Qed.

Lemma Part000_vaultRaftSnapshot_at sc c path w :
  Part000.vaultRaftSnapshot sc (Some c) path w
  = outcome_of w (snapshot_result sc (client_token c) path (fs w) (files w) []).
Proof. rewrite <- Part000_vaultRaftSnapshot_eval. by rewrite after_id. Qed.

Lemma Part000_vaultClientConfig_at sc config w :
  Part000.vaultClientConfig sc config w
  = outcome_of w (client_result sc config (fs w) (files w) []).
Proof. rewrite <- Part000_vaultClientConfig_eval. by rewrite after_id. Qed.

(** * The claims *)

(** ** C1: the upload key *)

Lemma success_content (main : Scenario -> Go unit) :
  success_uploads_under_key main ->
  forall sc env disk w,
    run (main sc) env disk = (0, w) ->
    fs w !! getenv env "VAULT_SNAPSHOT_PATH" = Some (snapshot_payload sc).
Proof. intros Hm sc env disk w H. by destruct (Hm sc env disk w H) as (_ & ? & _). Qed.

Lemma MainGo_success_content : success_uploads_under_key MainGo.main.
Proof.
  intros sc env disk w H q size. subst q size. rewrite MainGo_run in H.
  revert H. result_cases; intros H; simplify_eq.
  cbn [final_world trace fs files]. rewrite lookup_insert_eq. repeat split.
Qed.

Lemma Part000_success_content : success_uploads_under_key Part000.main.
Proof.
  intros sc env disk w H q size. subst q size. rewrite Part000_run in H.
  revert H. result_cases; intros H; simplify_eq.
  all: cbn [final_world trace fs files]; rewrite lookup_insert_eq.
  all: repeat split.
Qed.

(** C1.  For every transfer config with prefix p and every staging path q, a
    successful upload uses the destination key p + "-" + basename(q) exactly
    (path /tmp/snap.out with prefix nightly gives nightly-snap.out), and the
    pipeline leaves a closed file at path q.  Stated for the upload stage of
    src/main.go on any world, and for whole runs of both programs. *)
Theorem upload_key_is_prefix_dash_basename :
  (forall sc config q w out w',
      MainGo.snapshotS3Upload sc config q w = Returns (Some out, None) w' ->
      exists body,
        trace w' = trace w
          ++ [OpenFile q O_RDONLY; NewSession (MainGo.s3Region config);
              Upload (MainGo.s3Bucket config)
                (MainGo.s3Prefix config +:+ "-" +:+ filepath_Base q) body;
              Close (Some (length (files w)))]
        /\ fs w !! q = Some body
        /\ files w' = files w ++ [mkFile q O_RDONLY (length body) true])
  /\ success_uploads_under_key MainGo.main
  /\ success_uploads_under_key Part000.main
  /\ filepath_Base "/tmp/snap.out" = "snap.out"
  /\ "nightly" +:+ "-" +:+ filepath_Base "/tmp/snap.out" = "nightly-snap.out".
Proof.
  split; [|split; [|split; [|split; reflexivity]]].
  - intros sc config q w out w' H.
    rewrite MainGo_snapshotS3Upload_at in H. unfold upload_result in H.
    repeat case_match; cbn [outcome_of] in H; simplify_eq.
    eexists; split; [|split]; [|reflexivity|reflexivity].
    unfold after. cbn [trace app]. reflexivity.
  - apply MainGo_success_content.
  - apply Part000_success_content.
Qed.

Lemma upload_key_is_prefix_dash_basename_witness :
  run (MainGo.main sc_ok) env_ok empty_disk
  = (0, (run (MainGo.main sc_ok) env_ok empty_disk).2)
  /\ List.filter is_upload (trace (run (MainGo.main sc_ok) env_ok empty_disk).2)
     = [Upload "backups" "nightly-snap.out" demo_payload].
Proof.
  assert (H : run (MainGo.main sc_ok) env_ok empty_disk
              = (0, (run (MainGo.main sc_ok) env_ok empty_disk).2))
    by (vm_compute; reflexivity).
  split; [exact H|].
  exact (proj1 (proj1 (proj2 upload_key_is_prefix_dash_basename)
                  sc_ok env_ok empty_disk _ H)).
Defined.

(** ** C2: a static token *)

(** C2.  For every credential that is not the delegation sentinel: if its
    length (Go's [len], the number of bytes) is not 26, authentication
    fails with the invalid-token error and no network call is made; if it
    is 26, the credential is set as the token of the client directly, with
    no network call.  In [vaultClientConfig] the events of the call are
    exactly the TLS configuration, the client construction and, for a
    26-byte credential, [SetToken].  In src/main.go the same check is the
    guard of [vaultRaftSnapshot]: [SetToken] follows the client construction
    at once. *)
Theorem static_token_is_checked_locally
    (sc : Scenario) (w : World) (address path credential : string)
    (skip : bool) :
  credential <> "aws-iam" ->
  let config := Part000.mkVaultConfig address credential path skip in
  let config' := MainGo.mkVaultConfig address credential path in
  let invalid := errors_New "The Vault token is invalid" in
  let local evs := Forall (fun ev => is_network_call ev = false) evs in
  (len credential <> 26 ->
     (exists e evs,
         Part000.vaultClientConfig sc config w = Returns (None, Some e) (emits evs w)
         /\ local evs
         /\ (tls_error sc = None -> client_error sc = None ->
             e = invalid /\ evs = [ConfigureTLS skip; NewClient address]))
     /\ (exists e evs,
         MainGo.vaultRaftSnapshot sc config' w = Returns (None, Some e) (emits evs w)
         /\ local evs
         /\ (client_error sc = None ->
             e = invalid /\ evs = [NewClient address])))
  /\ (len credential = 26 -> client_error sc = None ->
      (tls_error sc = None ->
       Part000.vaultClientConfig sc config w
       = Returns (Some (mkClient (mkConfig address skip) credential), None)
           (emits [ConfigureTLS skip; NewClient address; SetToken credential] w))
      /\ exists rest,
          trace (world_of (MainGo.vaultRaftSnapshot sc config' w))
          = trace w ++ [NewClient address; SetToken credential] ++ rest).
Proof.
  intros Hs config config' invalid local.
  assert (Hne : (credential =? "aws-iam")%string = false)
    by (by apply String.eqb_neq).
  split.
  - intros Hlen.
    assert (Hb : negb (len credential =? 26) = true)
      by (apply negb_true_iff; by apply Z.eqb_neq).
    split.
    + rewrite Part000_vaultClientConfig_at. unfold client_result.
      cbn [config Part000.token Part000.vaultAddr Part000.insecure].
      rewrite Hne, Hb.
      destruct (tls_error sc) as [e|]; [|destruct (client_error sc) as [e|]];
        cbn [outcome_of]; do 2 eexists;
        (split; [reflexivity|split; [repeat constructor|]]);
        intros; (discriminate || done).
    + rewrite MainGo_vaultRaftSnapshot_at. unfold guarded_snapshot_result.
      cbn [config' MainGo.token MainGo.vaultAddr]. rewrite Hb.
      destruct (client_error sc) as [e|];
        cbn [outcome_of]; do 2 eexists;
        (split; [reflexivity|split; [repeat constructor|]]);
        intros; (discriminate || done).
  - intros Hlen Hc.
    assert (Hb : negb (len credential =? 26) = false)
      by (apply negb_false_iff; by apply Z.eqb_eq).
    split.
    + intros Ht. rewrite Part000_vaultClientConfig_at. unfold client_result.
      cbn [config Part000.token Part000.vaultAddr Part000.insecure].
      by rewrite Ht, Hc, Hne, Hb.
    + rewrite MainGo_vaultRaftSnapshot_at.
      unfold guarded_snapshot_result, snapshot_result.
      cbn [config' MainGo.token MainGo.vaultAddr MainGo.snapshotPath].
      rewrite Hc, Hb.
      repeat case_match; cbn [outcome_of world_of after trace app];
        eexists; reflexivity.
Qed.

Lemma static_token_is_checked_locally_witness :
  Part000.vaultClientConfig sc_ok (vault_demo token26)
    (initial_world no_env empty_disk)
  = Returns
      (Some (mkClient (mkConfig "https://vault:8200" false) token26), None)
      (emits [ConfigureTLS false; NewClient "https://vault:8200";
              SetToken token26] (initial_world no_env empty_disk)).
Proof.
  refine (proj1 (proj2 (static_token_is_checked_locally sc_ok
                          (initial_world no_env empty_disk)
                          "https://vault:8200" "/tmp/snap.out" token26 false _)
                   _ _) _);
    [discriminate | reflexivity | reflexivity | reflexivity].
Defined.

(** ** C3: the delegation sentinel *)

(** C3.  For the credential "aws-iam", authentication performs the login
    flow of the identity provider instead of the 26-byte token check: the
    provider is initialised and [Login] is called, the result depends on
    the answer of the login only, the invalid-token error does not occur
    and [SetToken] is not called.  A login that fails (the provider cannot
    be initialised, the call errors, or no auth info comes back) never
    gives a client: the function returns [nil] and an error. *)
Theorem sentinel_logs_in_with_identity_provider
    (sc : Scenario) (w : World) (config : Part000.VaultConfig) :
  Part000.token config = "aws-iam" ->
  let address := Part000.vaultAddr config in
  let skip := Part000.insecure config in
  let made := [ConfigureTLS skip; NewClient address] in
  (tls_error sc = None -> client_error sc = None ->
     match awsauth_error sc with
     | Some _ =>
         Part000.vaultClientConfig sc config w
         = Returns (None, Some (errors_New "Unable to initialize AWS IAM authentication"))
             (emits (made ++ [NewAWSAuth]) w)
     | None =>
         Part000.vaultClientConfig sc config w
         = Returns
             match login_result sc with
             | LoginError _ =>
                 (None, Some (errors_New "Unable to login to AWS IAM auth method"))
             | LoginNoAuthInfo =>
                 (None, Some (errors_New "No auth info was returned after login"))
             | LoginOk tok => (Some (mkClient (mkConfig address skip) tok), None)
             end
             (emits (made ++ [NewAWSAuth; Login]) w)
     end)
  /\ ((is_Some (awsauth_error sc) \/ forall tok, login_result sc <> LoginOk tok) ->
      exists e evs,
        Part000.vaultClientConfig sc config w = Returns (None, Some e) (emits evs w)).
Proof.
  intros Htok address skip made.
  rewrite Part000_vaultClientConfig_at. unfold client_result.
  rewrite Htok. cbn [String.eqb Ascii.eqb Bool.eqb].
  fold address skip. split.
  - intros -> ->. destruct (awsauth_error sc); reflexivity.
  - intros Hfail.
    destruct (tls_error sc); [by do 2 eexists|].
    destruct (client_error sc); [by do 2 eexists|].
    destruct (awsauth_error sc) as [e|]; [by do 2 eexists|].
    destruct Hfail as [[e He]|Hfail]; [discriminate|].
    destruct (login_result sc) as [e| |tok]; [by do 2 eexists..|].
    by destruct (Hfail tok).
Qed.

Lemma sentinel_logs_in_with_identity_provider_witness :
  Part000.vaultClientConfig
    (with_login (LoginError (External "403 permission denied")) sc_ok)
    (vault_demo "aws-iam") (initial_world no_env empty_disk)
  = Returns (None, Some (errors_New "Unable to login to AWS IAM auth method"))
      (emits [ConfigureTLS false; NewClient "https://vault:8200"; NewAWSAuth; Login]
         (initial_world no_env empty_disk)).
Proof.
  exact (proj1 (sentinel_logs_in_with_identity_provider
                  (with_login (LoginError (External "403 permission denied")) sc_ok)
                  (initial_world no_env empty_disk) (vault_demo "aws-iam") eq_refl)
           eq_refl eq_refl).
Defined.

(** src/main.go has no sentinel: there "aws-iam" is a credential of 7 bytes
    and fails the length check. *)
Remark MainGo_has_no_sentinel sc w address path :
  client_error sc = None ->
  MainGo.vaultRaftSnapshot sc (MainGo.mkVaultConfig address "aws-iam" path) w
  = Returns (None, Some (errors_New "The Vault token is invalid"))
      (emits [NewClient address] w).
Proof.
  intros Hc. rewrite MainGo_vaultRaftSnapshot_at. unfold guarded_snapshot_result.
  by rewrite Hc.
Qed.

(** ** C4: the staging file after the snapshot stage *)

Ltac in_trace :=
  repeat match goal with
    | H : In _ (_ :: _) |- _ => destruct H as [H|H]
    | H : In _ [] |- _ => destruct H
    | H : _ = _ |- _ => discriminate H
    end.

(** C4.  When the snapshot operation succeeds the staging file exists, its
    file object is closed when control returns to the caller, and it holds
    the complete payload, whatever the file held before.  When the stream
    fails the file object is closed all the same, no file is returned to
    the caller, and no run hands partial contents to the uploader.  Stated
    for [vaultRaftSnapshot] of both programs on any world. *)
Theorem snapshot_file_closed_and_complete (sc : Scenario) (w : World) :
  (forall config,
      client_error sc = None -> len (MainGo.token config) = 26 ->
      snapshot_stage_spec sc w (MainGo.snapshotPath config)
        (MainGo.vaultRaftSnapshot sc config w))
  /\ (forall c path,
      snapshot_stage_spec sc w path
        (Part000.vaultRaftSnapshot sc (Some c) path w))
  /\ uploads_only_complete_snapshots MainGo.main
  /\ uploads_only_complete_snapshots Part000.main.
Proof.
  assert (Hstage : forall tok path evs,
             snapshot_stage_spec sc w path
               (outcome_of w (snapshot_result sc tok path (fs w) (files w) evs))).
  { intros tok path evs. unfold snapshot_stage_spec, snapshot_result.
    split; [|split].
    - intros g err w' H.
      repeat case_match; cbn [outcome_of] in H; simplify_eq.
      cbn [after fs files]. rewrite lookup_insert_eq. done.
    - intros n e ->.
      destruct (open_denied sc path SNAPSHOT_FLAG); cbn [outcome_of after files];
        eauto.
    - intros -> -> ->. cbn [outcome_of]. eauto. }
  split; [|split; [|split]].
  - intros config Hc Hlen. rewrite MainGo_vaultRaftSnapshot_at.
    unfold guarded_snapshot_result. rewrite Hc.
    replace (negb (len (MainGo.token config) =? 26)) with false
      by (symmetry; apply negb_false_iff; by apply Z.eqb_eq).
    apply Hstage.
  - intros c path. rewrite Part000_vaultRaftSnapshot_at. apply Hstage.
  - intros sc' env disk bucket key body. rewrite MainGo_run.
    result_cases; intros H; in_trace; simplify_eq; done.
  - intros sc' env disk bucket key body. rewrite Part000_run.
    result_cases; intros H; in_trace; simplify_eq; done.
Qed.

Lemma snapshot_file_closed_and_complete_witness :
  fs (world_of (MainGo.vaultRaftSnapshot sc_ok (vault_demo_main token26)
                  (initial_world no_env empty_disk))) !! "/tmp/snap.out"
  = Some demo_payload
  /\ files (world_of (MainGo.vaultRaftSnapshot sc_ok (vault_demo_main token26)
                        (initial_world no_env empty_disk)))
     = [mkFile "/tmp/snap.out" SNAPSHOT_FLAG 3 true].
Proof.
  set (w' := world_of (MainGo.vaultRaftSnapshot sc_ok (vault_demo_main token26)
                         (initial_world no_env empty_disk))).
  pose proof (proj1 (proj1 (snapshot_file_closed_and_complete sc_ok
                              (initial_world no_env empty_disk))
                       (vault_demo_main token26) eq_refl eq_refl)) as H.
  specialize (H 0%nat None w' ltac:(vm_compute; reflexivity)).
  split; [exact (proj1 (proj2 (proj2 (proj2 H))))
         |exact (proj2 (proj2 (proj2 (proj2 H))))].
Defined.

(** ** C5: no upload after a failed stream *)

(** C5.  In every run in which the snapshot stream call fails, no upload
    call is attempted (the upload call count is 0): the run aborts after
    closing the staging file and before the uploader is invoked.  For both
    programs. *)
Theorem stream_failure_never_uploads :
  stream_failure_aborts MainGo.main /\ stream_failure_aborts Part000.main.
Proof.
  split; intros sc env disk n e Hs r; subst r.
  - rewrite MainGo_run. result_cases.
    all: repeat split; try reflexivity; repeat constructor.
  - rewrite Part000_run. result_cases.
    all: repeat split; try reflexivity; repeat constructor.
Qed.

Lemma stream_failure_never_uploads_witness :
  (run (MainGo.main sc_stream_fails) env_ok empty_disk).1 = 1
  /\ upload_calls (run (MainGo.main sc_stream_fails) env_ok empty_disk).2 = 0%nat
  /\ Forall closed (files (run (MainGo.main sc_stream_fails) env_ok empty_disk).2).
Proof.
  exact (proj1 stream_failure_never_uploads sc_stream_fails env_ok empty_disk
           2%nat (External "unexpected EOF") eq_refl).
Defined.

(** ** C6: running again *)

Lemma app_not_self (a b : list byte) : a <> [] -> a ++ b <> b.
Proof.
  intros Ha H. apply (f_equal length) in H. rewrite length_app in H.
  destruct a; [done|]. cbn in H. lia.
Qed.

(** C6.  Running the pipeline again on the same staging path truncates what
    the file held before streaming: the open of the snapshot stage leaves
    the file empty whatever it held, and after a second successful run the
    content (and so the size) is the newest snapshot only, never the two
    snapshots one after the other.  For both programs. *)
Theorem rerun_truncates_prior_content :
  (forall sc q perm w,
      open_denied sc q SNAPSHOT_FLAG = None ->
      exists w',
        os_OpenFile sc q SNAPSHOT_FLAG perm w
        = Returns (Some (length (files w)), None) w'
        /\ fs w' !! q = Some [])
  /\ rerun_keeps_newest_only MainGo.main
  /\ rerun_keeps_newest_only Part000.main.
Proof.
  assert (Hgen : forall main, success_uploads_under_key main ->
                              rerun_keeps_newest_only main).
  { intros main Hm sc1 sc2 env disk w1 w2 H1 H2 q. subst q.
    rewrite (success_content main Hm _ _ _ _ H1).
    rewrite (success_content main Hm _ _ _ _ H2).
    repeat split. intros Hne [= H]. symmetry in H. by apply app_not_self in H. }
  split; [|split].
  - intros sc q perm w Ho.
    pose proof (os_OpenFile_create_trunc sc w (fs w) (files w) [] q
                  SNAPSHOT_FLAG perm eq_refl eq_refl) as E.
    rewrite after_id, Ho in E. rewrite E.
    eexists; split; [reflexivity|]. cbn [after fs]. apply lookup_insert_eq.
  - apply Hgen, MainGo_success_content.
  - apply Hgen, Part000_success_content.
Qed.

Lemma rerun_truncates_prior_content_witness :
  fs (run (MainGo.main sc_older) env_ok empty_disk).2 !! "/tmp/snap.out"
  = Some [Byte.x0a; Byte.x0b; Byte.x0c; Byte.x0d]
  /\ fs (run (MainGo.main sc_ok) env_ok
            (fs (run (MainGo.main sc_older) env_ok empty_disk).2)).2
     !! "/tmp/snap.out"
     = Some demo_payload.
Proof.
  set (w1 := (run (MainGo.main sc_older) env_ok empty_disk).2).
  set (w2 := (run (MainGo.main sc_ok) env_ok (fs w1)).2).
  pose proof (proj1 (proj2 rerun_truncates_prior_content) sc_older sc_ok env_ok
                empty_disk w1 w2 ltac:(vm_compute; reflexivity)
                ltac:(vm_compute; reflexivity)) as H.
  split; [exact (proj1 H)|exact (proj1 (proj2 H))].
Defined.

(** Why the truncation matters: the snapshot is written from offset 0, so
    without it a shorter snapshot would leave the tail of the older one. *)
Remark write_without_truncation_keeps_tail :
  write_at 0 [Byte.x01] [Byte.x0a; Byte.x0b; Byte.x0c]
  = [Byte.x01; Byte.x0b; Byte.x0c].
Proof. reflexivity. Qed.

(** ** C7: a close that fails *)

(** Splitting a list of events at its last event. *)
Ltac split_last l :=
  lazymatch l with
  | [?x] => constr:((@nil event, x))
  | ?x :: ?t =>
      let r := split_last t in
      lazymatch r with (?p, ?z) => constr:((x :: p, z)) end
  end.

Ltac last_events_solve :=
  unfold last_events, close_failed; cbn [trace final_world];
  match goal with
  | |- exists before, ?l = before ++ _ =>
      let r := split_last l in
      lazymatch r with
      | (?p, _) =>
          let r' := split_last p in
          lazymatch r' with (?p', _) => exists p'; reflexivity end
      end
  end.

Lemma close_failure_is_fatal_MainGo : close_failure_is_fatal MainGo.main.
Proof.
  intros sc env disk r q. subst r q. rewrite MainGo_run. split.
  - intros f e Hf. result_cases; intros H; in_trace; simplify_eq;
      (split; [reflexivity|]); eexists; (split; [last_events_solve|]);
      congruence.
  - result_cases; intros H; try discriminate H.
    split; [|split; [repeat constructor|reflexivity]].
    intros f Hf. in_trace; simplify_eq; assumption.
Qed.

Lemma close_failure_is_fatal_Part000 : close_failure_is_fatal Part000.main.
Proof.
  intros sc env disk r q. subst r q. rewrite Part000_run. split.
  - intros f e Hf. result_cases; intros H; in_trace; simplify_eq;
      (split; [reflexivity|]); eexists; (split; [last_events_solve|]);
      congruence.
  - result_cases; intros H; try discriminate H.
    all: split; [|split; [repeat constructor|reflexivity]].
    all: intros f Hf; in_trace; simplify_eq; assumption.
Qed.

(** C7.  A failure to close the staging file after an otherwise successful
    snapshot or upload operation turns the run into a failure:
    [snapshotFileClose] reports it and ends the process with [log.Fatalln]
    (status 1), so no run ends with status 0 unless every close of the file
    returned without error.  For the helper of src/main.go on any world,
    and for whole runs of both programs. *)
Theorem close_failure_converts_run_to_failure :
  (forall sc f w,
      MainGo.snapshotFileClose sc f w
      = match File_Close sc f w with
        | Returns None w' => Returns tt w'
        | Returns (Some e) w' =>
            Exits 1 (emit (Fatalln (VErr e)) (emit close_failed w'))
        | Exits c w' => Exits c w'
        | Panics v w' => Panics v w'
        end)
  /\ close_failure_is_fatal MainGo.main
  /\ close_failure_is_fatal Part000.main.
Proof.
  split; [|split].
  - intros sc f w. unfold MainGo.snapshotFileClose. rewrite bind_eq.
    destruct (File_Close sc f w) as [[e|] w'|c w'|v w']; reflexivity.
  - apply close_failure_is_fatal_MainGo.
  - apply close_failure_is_fatal_Part000.
Qed.

Lemma close_failure_converts_run_to_failure_witness :
  (run (MainGo.main sc_close_fails) env_ok empty_disk).1 = 1.
Proof.
  refine (proj1 (proj1 (proj1 (proj2 close_failure_converts_run_to_failure)
                          sc_close_fails env_ok empty_disk)
                   0%nat (External "input/output error") eq_refl _)).
  vm_compute. auto 15.
Defined.
(** ** C8: an upload that fails *)

Ltac last_fatal_solve :=
  cbn [trace final_world];
  match goal with
  | |- exists v before, ?l = before ++ _ =>
      let r := split_last l in
      lazymatch r with
      | (?p, Fatalln ?v) => exists v, p; reflexivity
      end
  end.

Lemma upload_failure_is_fatal_MainGo : upload_failure_is_fatal MainGo.main.
Proof.
  intros sc env disk e He r. subst r. rewrite MainGo_run.
  result_cases; (split; [done|]); intros bucket key body H;
    in_trace; simplify_eq;
    (split; [reflexivity|split; [reflexivity|last_fatal_solve]]).
Qed.

Lemma upload_failure_is_fatal_Part000 : upload_failure_is_fatal Part000.main.
Proof.
  intros sc env disk e He r. subst r. rewrite Part000_run.
  result_cases; (split; [done|]); intros bucket key body H;
    in_trace; simplify_eq;
    (split; [reflexivity|split; [reflexivity|last_fatal_solve]]).
Qed.

(** C8.  In every run in which the remote upload call fails, for whatever
    reason, the upload stage returns no location (the result is [nil] with
    the error, or the process has already ended in the deferred close) and
    the process exits with a status that is not zero.  For the upload stage
    of src/main.go on any world, and for whole runs of both programs. *)
Theorem upload_failure_returns_no_location :
  (forall sc config q w e,
      upload_error sc = Some e ->
      match MainGo.snapshotS3Upload sc config q w with
      | Returns (out, err) _ => out = None /\ is_Some err
      | Exits code _ => code = 1
      | Panics _ _ => True
      end)
  /\ (forall sc config q w e content,
      upload_error sc = Some e ->
      open_denied sc q O_RDONLY = None -> fs w !! q = Some content ->
      session_error sc = None -> close_error sc (length (files w)) = None ->
      MainGo.snapshotS3Upload sc config q w
      = Returns (None, Some e)
          (after w (fs w) (files w ++ [mkFile q O_RDONLY (length content) true])
             [OpenFile q O_RDONLY; NewSession (MainGo.s3Region config);
              Upload (MainGo.s3Bucket config)
                (MainGo.s3Prefix config +:+ "-" +:+ filepath_Base q) content;
              Println (VStr ("Vault backup failed to upload to S3 bucket "
                             +:+ MainGo.s3Bucket config));
              Println (VErr e);
              Close (Some (length (files w)))]))
  /\ upload_failure_is_fatal MainGo.main
  /\ upload_failure_is_fatal Part000.main.
Proof.
  split; [|split; [|split]].
  - intros sc config q w e He. rewrite MainGo_snapshotS3Upload_at.
    unfold upload_result. rewrite He.
    repeat case_match; cbn [outcome_of] in *; simplify_eq; eauto.
  - intros sc config q w e content He Ho Hq Hs Hc.
    rewrite MainGo_snapshotS3Upload_at. unfold upload_result.
    rewrite He, Ho, Hq, Hs, Hc. reflexivity.
  - apply upload_failure_is_fatal_MainGo.
  - apply upload_failure_is_fatal_Part000.
Qed.

Lemma upload_failure_returns_no_location_witness :
  (run (MainGo.main sc_upload_fails) env_ok empty_disk).1 <> 0.
Proof.
  exact (proj1 (proj1 (proj2 (proj2 upload_failure_returns_no_location))
                  sc_upload_fails env_ok empty_disk (External "AccessDenied")
                  eq_refl)).
Defined.

(** ** C9: the TLS-skip-verify input *)

Lemma strconv_ParseBool_accepts (s : string) :
  (strconv_ParseBool s).2 = None <-> In s (true_words ++ false_words).
Proof.
  unfold strconv_ParseBool. split.
  - repeat match goal with
      | |- context [String.eqb s ?x] =>
          destruct (String.eqb_spec s x); [subst; cbn; tauto|]
      end.
    cbn. discriminate.
  - intros H. cbn in H.
    repeat (destruct H as [<-|H]; [reflexivity|]). destruct H.
Qed.

Lemma strconv_ParseBool_true (s : string) :
  strconv_ParseBool s = (true, None) <-> In s true_words.
Proof.
  unfold strconv_ParseBool. split.
  - repeat match goal with
      | |- context [String.eqb s ?x] =>
          destruct (String.eqb_spec s x);
          [subst; cbn; first [tauto | discriminate]|]
      end.
    cbn. discriminate.
  - intros H. cbn in H.
    repeat (destruct H as [<-|H]; [reflexivity|]). destruct H.
Qed.

(** C9.  The TLS-skip-verify input is read from the environment when the
    process starts (variable VAULT_SKIP_VERIFY, empty when not set) and
    parsed as a boolean by [strconv.ParseBool]; on any value that does not
    parse the run is fatal before anything else happens; the parsed flag
    is what the TLS configuration of the client is called with, and a TLS
    configuration that fails makes [vaultClientConfig] return its error and
    the run end with status 1. *)
Theorem tls_skip_verify_is_parsed_and_used :
  (forall s, (strconv_ParseBool s).2 = None <-> In s (true_words ++ false_words))
  /\ (forall s, strconv_ParseBool s = (true, None) <-> In s true_words)
  /\ (forall sc env disk,
      (strconv_ParseBool (getenv env "VAULT_SKIP_VERIFY")).2 <> None ->
      run (Part000.main sc) env disk
      = (1, {| environ := env; fs := disk; files := [];
               trace := [Fatalln (VStr "Invalid boolean value for VAULT_SKIP_VERIFY")] |}))
  /\ (forall sc env disk flag,
      strconv_ParseBool (getenv env "VAULT_SKIP_VERIFY") = (flag, None) ->
      let r := run (Part000.main sc) env disk in
      (exists rest, trace r.2 = ConfigureTLS flag :: rest)
      /\ forall e,
          tls_error sc = Some e ->
          r = (1, {| environ := env; fs := disk; files := [];
                     trace :=
                       [ConfigureTLS flag;
                        Println (VStr "Vault TLS configuration failed to initialize");
                        Println (VErr e);
                        Fatalln (VStr "Vault client initialization and configuration failed")] |}))
  /\ (forall sc config w e,
      tls_error sc = Some e ->
      Part000.vaultClientConfig sc config w
      = Returns (None, Some e)
          (emits [ConfigureTLS (Part000.insecure config);
                  Println (VStr "Vault TLS configuration failed to initialize");
                  Println (VErr e)] w)).
Proof.
  split; [|split; [|split; [|split]]].
  - apply strconv_ParseBool_accepts.
  - apply strconv_ParseBool_true.
  - intros sc env disk H. rewrite Part000_run. unfold Part000_result.
    destruct (strconv_ParseBool (getenv env "VAULT_SKIP_VERIFY")) as [b [e|]];
      [reflexivity|by destruct H].
  - intros sc env disk flag Hp r. subst r. rewrite Part000_run.
    unfold Part000_result. rewrite Hp. split.
    + result_cases; eexists; reflexivity.
    + intros e He. unfold client_result. rewrite He. reflexivity.
  - intros sc config w e He. rewrite Part000_vaultClientConfig_at.
    unfold client_result. by rewrite He.
Qed.

Lemma tls_skip_verify_is_parsed_and_used_witness :
  run (Part000.main sc_ok) (env_with token26 "maybe") empty_disk
  = (1, {| environ := env_with token26 "maybe"; fs := empty_disk; files := [];
           trace := [Fatalln (VStr "Invalid boolean value for VAULT_SKIP_VERIFY")] |}).
Proof.
  refine (proj1 (proj2 (proj2 tls_skip_verify_is_parsed_and_used))
            sc_ok (env_with token26 "maybe") empty_disk _).
  vm_compute. discriminate.
Defined.

(** ** C10: the second close *)

Ltac events_suffix k :=
  unfold last_events, close_failed; cbn [trace final_world];
  match goal with
  | |- exists before, ?l = before ++ _ =>
      let n := eval cbv [length Nat.sub] in (length l - k)%nat in
      let p := eval cbv [take] in (take n l) in
      exists p; reflexivity
  end.

Lemma stream_failure_ends_in_close_helper_MainGo :
  stream_failure_ends_in_close_helper MainGo.main.
Proof.
  intros sc env disk n e tok Hs r q. subst r q. rewrite MainGo_run.
  result_cases; intros H; in_trace; simplify_eq.
  split; [reflexivity|split; [reflexivity|split; [events_suffix 5%nat|]]].
  intros H. in_trace.
Qed.

Lemma stream_failure_ends_in_close_helper_Part000 :
  stream_failure_ends_in_close_helper Part000.main.
Proof.
  intros sc env disk n e tok Hs r q. subst r q. rewrite Part000_run.
  result_cases; intros H; in_trace; simplify_eq.
  all: split; [reflexivity|split; [reflexivity|split; [events_suffix 5%nat|]]].
  all: intros H; in_trace.
Qed.

(** C10.  Whenever the snapshot stream call fails, [Close] is invoked twice
    on the staging file, once on the error branch and once more by the
    deferred close helper on the file already closed, so the function does
    not return its error: the process ends with status 1 in the failure
    handler of [snapshotFileClose].  For [vaultRaftSnapshot] of both
    programs on any world, and for whole runs of both programs. *)
Theorem stream_failure_closes_twice (sc : Scenario) (w : World) (n : nat)
    (e : error) :
  stream_result sc = StreamError n e ->
  let f := length (files w) in
  let partial := take n (snapshot_payload sc) in
  let ending tok path :=
    [OpenFile path SNAPSHOT_FLAG; RaftSnapshot tok;
     Close (Some f);
     Println (VStr "Vault Raft snapshot invocation failed");
     Println (VErr e);
     Close (Some f);
     Println (VStr "Vault raft snapshot file failed to close");
     Fatalln (VErr (PathError "close" path ErrClosed))] in
  let left_behind path evs :=
    after w (<[path := partial]> (fs w))
      (files w ++ [mkFile path SNAPSHOT_FLAG (length partial) true]) evs in
  (forall config,
      client_error sc = None -> len (MainGo.token config) = 26 ->
      open_denied sc (MainGo.snapshotPath config) SNAPSHOT_FLAG = None ->
      MainGo.vaultRaftSnapshot sc config w
      = Exits 1
          (left_behind (MainGo.snapshotPath config)
             ([NewClient (MainGo.vaultAddr config); SetToken (MainGo.token config)]
              ++ ending (MainGo.token config) (MainGo.snapshotPath config))))
  /\ (forall c path,
      open_denied sc path SNAPSHOT_FLAG = None ->
      Part000.vaultRaftSnapshot sc (Some c) path w
      = Exits 1 (left_behind path (ending (client_token c) path)))
  /\ stream_failure_ends_in_close_helper MainGo.main
  /\ stream_failure_ends_in_close_helper Part000.main.
Proof.
  intros Hs f partial ending left_behind.
  split; [|split; [|split]].
  - intros config Hc Hlen Ho. rewrite MainGo_vaultRaftSnapshot_at.
    unfold guarded_snapshot_result, snapshot_result. rewrite Hc, Ho, Hs.
    replace (negb (len (MainGo.token config) =? 26)) with false
      by (symmetry; apply negb_false_iff; by apply Z.eqb_eq).
    reflexivity.
  - intros c path Ho. rewrite Part000_vaultRaftSnapshot_at.
    unfold snapshot_result. rewrite Ho, Hs. reflexivity.
  - apply stream_failure_ends_in_close_helper_MainGo.
  - apply stream_failure_ends_in_close_helper_Part000.
Qed.

Lemma stream_failure_closes_twice_witness :
  MainGo.vaultRaftSnapshot sc_stream_fails (vault_demo_main token26)
    (initial_world no_env empty_disk)
  = Exits 1
      {| environ := no_env;
         fs := <["/tmp/snap.out" := [Byte.x01; Byte.x02]]> empty_disk;
         files := [mkFile "/tmp/snap.out" SNAPSHOT_FLAG 2 true];
         trace :=
           [NewClient "https://vault:8200"; SetToken token26;
            OpenFile "/tmp/snap.out" SNAPSHOT_FLAG; RaftSnapshot token26;
            Close (Some 0%nat);
            Println (VStr "Vault Raft snapshot invocation failed");
            Println (VErr (External "unexpected EOF"));
            Close (Some 0%nat);
            Println (VStr "Vault raft snapshot file failed to close");
            Fatalln (VErr (PathError "close" "/tmp/snap.out" ErrClosed))] |}.
Proof.
  exact (proj1 (stream_failure_closes_twice sc_stream_fails
                  (initial_world no_env empty_disk) 2%nat
                  (External "unexpected EOF") eq_refl)
           (vault_demo_main token26) eq_refl eq_refl eq_refl).
Defined.

(** * Whole runs, case by case *)

Ltac xsimpl :=
  cbn [exit_status final_world fst snd trace files fs environ
       mbind option_bind lookup list_lookup length app
       file_name file_closed file_flag file_offset
       MainGo_config Part000_config Part000Inline_config as_Part000
       MainGo.vaultAddr MainGo.token MainGo.snapshotPath
       Part000.vaultAddr Part000.token Part000.snapshotPath Part000.insecure
       Part000Inline.vaultAddr Part000Inline.token Part000Inline.snapshotPath
       Part000Inline.insecure
       List.filter is_upload is_printf is_network_call is_close_of Nat.eqb
       is_stream is_login is_open is_output calls negb upload_keys flat_map
       upload_calls count_events Location client_token client_config].

Ltac xcases :=
  unfold MainGo_result, Part000_result, Part000Inline_result, pipeline_result,
    inline_snapshot_result,
    guarded_snapshot_result, snapshot_result, upload_result, client_result,
    close_failed;
  repeat first
    [ progress xsimpl
    | rewrite lookup_insert_eq
    | innermost_case ].

(** Case analysis on a run: the statement is kept aside while the result
    of the run is split into its cases. *)
Ltac leaves lem :=
  match goal with
  | |- context [run ?m ?e ?d] =>
      pattern (run m e d);
      match goal with
      | |- ?P _ =>
          let Q := fresh "Q" in
          set (Q := P); rewrite lem; xcases; subst Q; cbv beta; xsimpl
      end
  end.

Lemma never_leaks_MainGo : never_leaks_file_objects MainGo.main.
Proof.
  intros sc env disk. leaves MainGo_run; repeat constructor.
Qed.

Lemma never_leaks_Part000 : never_leaks_file_objects Part000.main.
Proof.
  intros sc env disk. leaves Part000_run; repeat constructor.
Qed.



(** ** The second text of part_000 *)

Lemma Part000Inline_vaultRaftSnapshot_eval sc w m l evs config :
  Part000Inline.vaultRaftSnapshot sc config (after w m l evs)
  = outcome_of w (inline_snapshot_result sc config m l evs).
Proof.
  unfold Part000Inline.vaultRaftSnapshot, inline_snapshot_result, client_result.
  cbn [as_Part000 Part000.vaultAddr Part000.token Part000.insecure].
  cbv zeta. rewrite bind_eq, Config_ConfigureTLS_after.
  destruct (tls_error sc); cbv beta iota.
  { go_run. trace_norm. reflexivity. }
  rewrite bind_eq, api_NewClient_after.
  destruct (client_error sc); cbv beta iota.
  { go_run. trace_norm. reflexivity. }
  destruct (Part000Inline.token config =? "aws-iam")%string.
  - rewrite bind_eq, auth_NewAWSAuth_after.
    destruct (awsauth_error sc); cbv beta iota.
    { rewrite ret_eq. trace_norm. reflexivity. }
    rewrite bind_eq, Auth_Login_after.
    destruct (login_result sc) as [e| |tok]; cbv beta iota;
      try (rewrite ret_eq; trace_norm; reflexivity).
    trace_norm.
    exact (Part000_vaultRaftSnapshot_eval sc w m l _
             (mkClient (mkConfig (Part000Inline.vaultAddr config)
                          (Part000Inline.insecure config)) tok)
             (Part000Inline.snapshotPath config)).
  - destruct (negb (len (Part000Inline.token config) =? 26)).
    { rewrite ret_eq. trace_norm. reflexivity. }
    rewrite bind_eq, Client_SetToken_after. cbv beta iota. trace_norm.
    exact (Part000_vaultRaftSnapshot_eval sc w m l _
             (mkClient (mkConfig (Part000Inline.vaultAddr config)
                          (Part000Inline.insecure config))
                (Part000Inline.token config))
             (Part000Inline.snapshotPath config)).
Qed.

Lemma Part000Inline_snapshotS3Upload_eval sc w m l evs config q :
  Part000Inline.snapshotS3Upload sc config q (after w m l evs)
  = outcome_of w
      (upload_result sc "Failed to open snapshot file %q, %v"
         (Part000Inline.s3Bucket config) (Part000Inline.s3Prefix config)
         (Part000Inline.s3Region config) q m l evs).
Proof.
  exact (MainGo_snapshotS3Upload_eval sc w m l evs
           (MainGo.mkAWSConfig (Part000Inline.s3Bucket config)
              (Part000Inline.s3Prefix config) (Part000Inline.s3Region config)) q).
Qed.

Ltac pipeline_eval_inline :=
  unfold pipeline_result;
  match goal with
  | |- context [outcome_of _ ?r] =>
      destruct r as [[f [e|]] m l evs|c m l evs|v m l evs]
  end;
  cbn [outcome_of]; go_run; try (trace_norm; reflexivity);
  rewrite File_Name_after;
  match goal with
  | |- context [match ?x with Some _ => _ | None => _ end] =>
      destruct x; [|reflexivity]
  end;
  go_run; rewrite Part000Inline_snapshotS3Upload_eval;
  cbn [Part000Inline.s3Bucket Part000Inline.s3Prefix Part000Inline.s3Region];
  match goal with
  | |- context [outcome_of _ ?r] =>
      destruct r as [[[o|] [e|]] m' l' evs'|c m' l' evs'|v m' l' evs']
  end;
  cbn [outcome_of]; unfold UploadOutput_Location; go_run;
  try (trace_norm; reflexivity); reflexivity.

Lemma Part000Inline_run sc env disk :
  run (Part000Inline.main sc) env disk
  = (exit_status (Part000Inline_result sc env disk),
     final_world env (Part000Inline_result sc env disk)).
Proof.
  apply run_outcome_of.
  unfold Part000Inline.main, Part000Inline_result.
  rewrite initial_world_after at 1.
  go_run. cbn [environ initial_world].
  destruct (strconv_ParseBool (getenv env "VAULT_SKIP_VERIFY"))
    as [insecure [e|]]; go_run; [reflexivity|].
  rewrite Part000Inline_vaultRaftSnapshot_eval.
  cbn [environ initial_world]. fold (Part000Inline_config env insecure).
  pipeline_eval_inline.
Qed.

Lemma never_leaks_Part000Inline : never_leaks_file_objects Part000Inline.main.
Proof.
  intros sc env disk. leaves Part000Inline_run; repeat constructor.
Qed.


Lemma calls_at_most_once_all :
  calls_at_most_once MainGo.main /\ calls_at_most_once Part000.main
  /\ calls_at_most_once Part000Inline.main.
Proof.
  split; [|split]; intros sc env disk w; subst w.
  - leaves MainGo_run; repeat split; lia.
  - leaves Part000_run; repeat split; lia.
  - leaves Part000Inline_run; repeat split; lia.
Qed.

Ltac ends_solve :=
  unfold uploaded_message; cbn [trace final_world];
  first
    [ left; split; [reflexivity|];
      match goal with
      | |- exists before loc, ?l = before ++ _ =>
          let r := split_last l in
          lazymatch r with
          | (?p, Printf _ [VStr ?loc]) => exists p, loc; reflexivity
          end
      end
    | right; left; split; [reflexivity|];
      match goal with
      | |- exists before v, ?l = before ++ _ =>
          let r := split_last l in
          lazymatch r with
          | (?p, Fatalln ?v) => exists p, v; reflexivity
          end
      end
    | right; right; split; [reflexivity|]; split; [by eexists|];
      match goal with
      | |- exists before, ?l = before ++ _ =>
          let r := split_last l in
          lazymatch r with (?p, _) => exists p; reflexivity end
      end ].

Lemma ends_as_status_says_all :
  ends_as_status_says MainGo.main /\ ends_as_status_says Part000.main
  /\ ends_as_status_says Part000Inline.main.
Proof.
  split; [|split]; intros sc env disk r; subst r.
  - leaves MainGo_run; ends_solve.
  - leaves Part000_run; ends_solve.
  - leaves Part000Inline_run; ends_solve.
Qed.

Ltac len_hyps :=
  repeat match goal with
    | H : negb (_ =? _) = true |- _ =>
        apply negb_true_iff, Z.eqb_neq in H
    | H : negb (_ =? _) = false |- _ =>
        apply negb_false_iff, Z.eqb_eq in H
    end.

Ltac last_events_solve1 :=
  unfold last_events, uploaded_message; cbn [trace final_world];
  match goal with
  | |- exists before, ?l = before ++ _ =>
      let r := split_last l in
      lazymatch r with (?p, _) => exists p; reflexivity end
  end.

Ltac ok_solve :=
  len_hyps;
  split;
  [ split;
    [ intros H; try discriminate H;
      unfold MainGo_ok, Part000_ok, transfer_ok, authenticated;
      repeat match goal with
        | H : (_ =? _)%string = _ |- _ => rewrite H
        | H : strconv_ParseBool _ = _ |- _ => rewrite H
        end;
      cbn [snd]; eauto 15
    | unfold MainGo_ok, Part000_ok, transfer_ok, authenticated;
      repeat match goal with
        | H : (_ =? _)%string = _ |- _ => rewrite H
        | H : strconv_ParseBool _ = _ |- _ => rewrite H
        end;
      cbn [snd]; intros H; try reflexivity; exfalso;
      destruct_and?; repeat match goal with H : ex _ |- _ => destruct H end;
      destruct_and?; congruence ]
  | intros H; try discriminate H; last_events_solve1 ].

Lemma succeeds_exactly_when_all :
  succeeds_exactly_when MainGo.main MainGo_ok
  /\ succeeds_exactly_when Part000.main Part000_ok
  /\ succeeds_exactly_when Part000Inline.main Part000_ok.
Proof.
  split; [|split]; intros sc env disk r key; subst r key.
  - leaves MainGo_run; ok_solve.
  - leaves Part000_run; ok_solve.
  - leaves Part000Inline_run; ok_solve.
Qed.

Ltac auth_solve :=
  len_hyps; unfold authenticated;
  repeat match goal with
    | H : (_ =? _)%string = _ |- _ => rewrite H
    end;
  eauto 10.

Lemma snapshot_needs_authentication_Part000 :
  snapshot_needs_authentication Part000.main.
Proof.
  intros sc env disk w credential. subst w credential. split.
  - intros tok. leaves Part000_run; intros H; in_trace; simplify_eq; auth_solve.
  - intros p flag. leaves Part000_run; intros H; in_trace; simplify_eq;
      auth_solve.
Qed.

Lemma snapshot_needs_authentication_Part000Inline :
  snapshot_needs_authentication Part000Inline.main.
Proof.
  intros sc env disk w credential. subst w credential. split.
  - intros tok. leaves Part000Inline_run; intros H; in_trace; simplify_eq;
      auth_solve.
  - intros p flag. leaves Part000Inline_run; intros H; in_trace; simplify_eq;
      auth_solve.
Qed.

Lemma snapshot_needs_token_MainGo sc env disk tok :
  In (RaftSnapshot tok) (trace (run (MainGo.main sc) env disk).2) ->
  client_error sc = None /\ tok = getenv env "VAULT_TOKEN" /\ len tok = 26.
Proof.
  leaves MainGo_run; intros H; in_trace; simplify_eq; len_hyps; done.
Qed.

Lemma failed_stream_leaves_partial_file_all :
  failed_stream_leaves_partial_file MainGo.main
  /\ failed_stream_leaves_partial_file Part000.main
  /\ failed_stream_leaves_partial_file Part000Inline.main.
Proof.
  split; [|split]; intros sc env disk n e tok Hs.
  - leaves MainGo_run; intros H; in_trace; simplify_eq;
      apply lookup_insert_eq.
  - leaves Part000_run; intros H; in_trace; simplify_eq;
      apply lookup_insert_eq.
  - leaves Part000Inline_run; intros H; in_trace; simplify_eq;
      apply lookup_insert_eq.
Qed.

Lemma upload_never_misses_file_all :
  upload_never_misses_file MainGo.main
  /\ upload_never_misses_file Part000.main
  /\ upload_never_misses_file Part000Inline.main.
Proof.
  split; [|split]; intros sc env disk format p err.
  - leaves MainGo_run; intros H; in_trace; simplify_eq; eauto.
  - leaves Part000_run; intros H; in_trace; simplify_eq; eauto.
  - leaves Part000Inline_run; intros H; in_trace; simplify_eq; eauto.
Qed.

Lemma append_cancel (p a b : string) : p +:+ a = p +:+ b -> a = b.
Proof. induction p as [|c p IH]; cbn; [done|]. intros [= H]. auto. Qed.

Lemma success_upload_keys (main : Scenario -> Go unit) :
  success_uploads_under_key main ->
  forall sc env disk w,
    run (main sc) env disk = (0, w) ->
    upload_keys w
    = [getenv env "S3_PREFIX" +:+ "-"
       +:+ filepath_Base (getenv env "VAULT_SNAPSHOT_PATH")].
Proof.
  intros Hm sc env disk w H. destruct (Hm sc env disk w H) as (Hu & _).
  unfold upload_keys.
  assert (Hk : forall l,
             flat_map (fun e => match e with Upload _ key _ => [key] | _ => [] end) l
             = flat_map (fun e => match e with Upload _ key _ => [key] | _ => [] end)
                 (List.filter is_upload l)).
  { induction l as [|x l IH]; [reflexivity|].
    destruct x; cbn; try exact IH. by rewrite IH. }
  rewrite Hk, Hu. reflexivity.
Qed.

Lemma key_follows_base_name_of (main : Scenario -> Go unit) :
  success_uploads_under_key main -> key_follows_base_name main.
Proof.
  intros Hm sc1 sc2 env1 env2 disk1 disk2 w1 w2 H1 H2 Hp.
  rewrite (success_upload_keys main Hm _ _ _ _ H1).
  rewrite (success_upload_keys main Hm _ _ _ _ H2).
  rewrite Hp. split.
  - intros [= H]. by apply append_cancel, append_cancel in H.
  - by intros ->.
Qed.

Lemma Part000Inline_success_content :
  success_uploads_under_key Part000Inline.main.
Proof.
  intros sc env disk w H q size. subst q size. rewrite Part000Inline_run in H.
  revert H. xcases; intros H; simplify_eq.
  all: cbn [final_world trace fs files]; rewrite lookup_insert_eq.
  all: repeat split.
Qed.


Lemma Part000_adds_tls_to_MainGo sc env disk flag :
  strconv_ParseBool (getenv env "VAULT_SKIP_VERIFY") = (flag, None) ->
  tls_error sc = None ->
  getenv env "VAULT_TOKEN" <> "aws-iam" ->
  (run (Part000.main sc) env disk).1 = (run (MainGo.main sc) env disk).1
  /\ fs (run (Part000.main sc) env disk).2 = fs (run (MainGo.main sc) env disk).2
  /\ files (run (Part000.main sc) env disk).2
     = files (run (MainGo.main sc) env disk).2
  /\ calls (run (Part000.main sc) env disk).2
     = ConfigureTLS flag :: calls (run (MainGo.main sc) env disk).2.
Proof.
  intros Hp Ht Hne. apply String.eqb_neq in Hne.
  rewrite Part000_run, MainGo_run.
  unfold Part000_result. rewrite Hp.
  xcases; repeat split.
Qed.

Lemma creation_refused_stage sc w path e :
  open_denied sc path SNAPSHOT_FLAG = Some e ->
  let failure := PathError "open" path e in
  let said :=
    [OpenFile path SNAPSHOT_FLAG;
     Println (VStr ("snapshot file at " +:+ path +:+ " could not be created"));
     Println (VErr failure)] in
  (forall c,
      Part000.vaultRaftSnapshot sc (Some c) path w
      = Returns (None, Some failure) (emits said w))
  /\ (forall config,
      MainGo.snapshotPath config = path ->
      client_error sc = None -> len (MainGo.token config) = 26 ->
      MainGo.vaultRaftSnapshot sc config w
      = Returns (None, Some failure)
          (emits ([NewClient (MainGo.vaultAddr config);
                   SetToken (MainGo.token config)] ++ said) w)).
Proof.
  intros Ho failure said. split.
  - intros c. rewrite Part000_vaultRaftSnapshot_at. unfold snapshot_result.
    by rewrite Ho.
  - intros config <- Hc Hlen. rewrite MainGo_vaultRaftSnapshot_at.
    unfold guarded_snapshot_result, snapshot_result. rewrite Hc.
    replace (negb (len (MainGo.token config) =? 26)) with false
      by (symmetry; apply negb_false_iff; by apply Z.eqb_eq).
    by rewrite Ho.
Qed.

Lemma upload_of_missing_file sc q w :
  fs w !! q = None -> open_denied sc q O_RDONLY = None ->
  let failure := PathError "open" q ENOENT in
  (forall config,
      MainGo.snapshotS3Upload sc config q w
      = Returns (None, Some failure)
          (emits [OpenFile q O_RDONLY;
                  Printf "Failed to open snapshot file %q, %v"
                    [VStr q; VErr failure]] w))
  /\ (forall config,
      Part000.snapshotS3Upload sc config q w
      = Returns (None, Some failure)
          (emits [OpenFile q O_RDONLY;
                  Printf "Failed to open snapshot file %q: %v"
                    [VStr q; VErr failure]] w)).
Proof.
  intros Hq Ho failure. split; intros config.
  - rewrite MainGo_snapshotS3Upload_at. unfold upload_result. by rewrite Ho, Hq.
  - rewrite Part000_snapshotS3Upload_at. unfold upload_result. by rewrite Ho, Hq.
Qed.

Lemma unset_skip_verify_is_fatal sc env disk :
  env !! "VAULT_SKIP_VERIFY" = None ->
  run (Part000.main sc) env disk
  = (1, {| environ := env; fs := disk; files := [];
           trace := [Fatalln (VStr "Invalid boolean value for VAULT_SKIP_VERIFY")] |})
  /\ run (Part000Inline.main sc) env disk
     = (1, {| environ := env; fs := disk; files := [];
              trace := [Fatalln (VStr "Invalid value for VAULT_SKIP_VERIFY")] |}).
Proof.
  intros He. rewrite Part000_run, Part000Inline_run.
  unfold Part000_result, Part000Inline_result, getenv. rewrite He.
  split; reflexivity.
Qed.

(** The upload stage reads: whatever it returns, the disk is as it was. *)
Lemma upload_stage_keeps_disk sc q w :
  (forall config, fs (world_of (MainGo.snapshotS3Upload sc config q w)) = fs w)
  /\ (forall config, fs (world_of (Part000.snapshotS3Upload sc config q w)) = fs w).
Proof.
  split; intros config.
  - rewrite MainGo_snapshotS3Upload_at. unfold upload_result.
    repeat case_match; reflexivity.
  - rewrite Part000_snapshotS3Upload_at. unfold upload_result.
    repeat case_match; reflexivity.
Qed.

(** * Further properties of the code *)

(** X1.  No run leaves a file object open, whichever way it ends (return,
    [log.Fatalln], panic of [session.Must]): every file the program opens
    is closed by the explicit or the deferred close.  For the three texts
    of the program. *)
Theorem no_run_leaks_a_file_object :
  never_leaks_file_objects MainGo.main
  /\ never_leaks_file_objects Part000.main
  /\ never_leaks_file_objects Part000Inline.main.
Proof.
  split; [|split].
  - apply never_leaks_MainGo.
  - apply never_leaks_Part000.
  - apply never_leaks_Part000Inline.
Qed.



(** X3.  No retry: in a run the login, the snapshot stream and the upload
    are each called at most once, and at most two files are opened. *)
Theorem each_collaborator_called_at_most_once :
  calls_at_most_once MainGo.main /\ calls_at_most_once Part000.main
  /\ calls_at_most_once Part000Inline.main.
Proof. exact calls_at_most_once_all. Qed.

(** X4.  The exit status tells how the run ended: 0, the location was
    printed last; 1, a [log.Fatalln] was the last thing done; 2, only when
    the AWS session could not be created, and then the deferred close of
    the file opened for reading was the last thing done. *)
Theorem run_ends_as_status_says :
  ends_as_status_says MainGo.main /\ ends_as_status_says Part000.main
  /\ ends_as_status_says Part000Inline.main.
Proof. exact ends_as_status_says_all. Qed.

(** X5.  A run ends with status 0 exactly when every answer it depends on
    is a success (client, authentication, create, stream, both closes,
    open for reading, session, upload; for the programs of part_000 also
    the parse of VAULT_SKIP_VERIFY and the TLS configuration), and then
    the location printed is the one the object store returned for the
    bucket and the key prefix-basename. *)
Theorem run_succeeds_exactly_when_all_answers_do :
  succeeds_exactly_when MainGo.main MainGo_ok
  /\ succeeds_exactly_when Part000.main Part000_ok
  /\ succeeds_exactly_when Part000Inline.main Part000_ok.
Proof. exact succeeds_exactly_when_all. Qed.

Lemma run_succeeds_exactly_when_all_answers_do_witness :
  (run (MainGo.main sc_ok) env_ok empty_disk).1 = 0.
Proof.
  apply (proj1 (proj1 run_succeeds_exactly_when_all_answers_do
                  sc_ok env_ok empty_disk)).
  repeat split.
Defined.

(** X6.  The staging file is opened and the snapshot asked for only after
    the client was built and the authentication succeeded, and the
    snapshot call carries the token of that authentication: the credential
    itself (26 bytes), or for "aws-iam" the token of the login.  In
    src/main.go, which has no login, the token is the 26-byte credential. *)
Theorem snapshot_only_after_authentication :
  snapshot_needs_authentication Part000.main
  /\ snapshot_needs_authentication Part000Inline.main
  /\ (forall sc env disk tok,
      In (RaftSnapshot tok) (trace (run (MainGo.main sc) env disk).2) ->
      client_error sc = None /\ tok = getenv env "VAULT_TOKEN" /\ len tok = 26).
Proof.
  split; [|split].
  - apply snapshot_needs_authentication_Part000.
  - apply snapshot_needs_authentication_Part000Inline.
  - apply snapshot_needs_token_MainGo.
Qed.

Lemma snapshot_only_after_authentication_witness :
  tls_error sc_ok = None /\ client_error sc_ok = None
  /\ authenticated sc_ok (getenv env_iam "VAULT_TOKEN") token26.
Proof.
  apply (proj1 (proj1 snapshot_only_after_authentication sc_ok env_iam
                  empty_disk) token26).
  vm_compute. auto 15.
Defined.

(** X7.  After a run whose stream call was made and failed, the staging
    file holds the bytes written before the failure and nothing of what it
    held before: a failed run does not keep the older snapshot. *)
Theorem failed_stream_replaces_file_by_partial_content :
  failed_stream_leaves_partial_file MainGo.main
  /\ failed_stream_leaves_partial_file Part000.main
  /\ failed_stream_leaves_partial_file Part000Inline.main.
Proof. exact failed_stream_leaves_partial_file_all. Qed.

Lemma failed_stream_replaces_file_by_partial_content_witness :
  fs (run (MainGo.main sc_stream_fails) env_ok disk_with_other).2
    !! getenv env_ok "VAULT_SNAPSHOT_PATH"
  = Some [Byte.x01; Byte.x02].
Proof.
  apply (proj1 failed_stream_replaces_file_by_partial_content sc_stream_fails
           env_ok disk_with_other 2%nat (External "unexpected EOF") token26
           eq_refl).
  vm_compute. auto 15.
Defined.

(** X8.  The upload stage on a path that is not on disk: the open fails
    with ENOENT, the failure is printed, [nil] and the error are returned,
    and nothing else happens: no session, no upload, no file object, no
    close. *)
Theorem upload_of_missing_file_fails_at_open (sc : Scenario) (q : string)
    (w : World) :
  fs w !! q = None -> open_denied sc q O_RDONLY = None ->
  let failure := PathError "open" q ENOENT in
  (forall config,
      MainGo.snapshotS3Upload sc config q w
      = Returns (None, Some failure)
          (emits [OpenFile q O_RDONLY;
                  Printf "Failed to open snapshot file %q, %v"
                    [VStr q; VErr failure]] w))
  /\ (forall config,
      Part000.snapshotS3Upload sc config q w
      = Returns (None, Some failure)
          (emits [OpenFile q O_RDONLY;
                  Printf "Failed to open snapshot file %q: %v"
                    [VStr q; VErr failure]] w)).
Proof. exact (upload_of_missing_file sc q w). Qed.

Lemma upload_of_missing_file_fails_at_open_witness :
  MainGo.snapshotS3Upload sc_ok aws_demo "/tmp/missing"
    (initial_world no_env empty_disk)
  = Returns (None, Some (PathError "open" "/tmp/missing" ENOENT))
      (emits [OpenFile "/tmp/missing" O_RDONLY;
              Printf "Failed to open snapshot file %q, %v"
                [VStr "/tmp/missing";
                 VErr (PathError "open" "/tmp/missing" ENOENT)]]
         (initial_world no_env empty_disk)).
Proof.
  exact (proj1 (upload_of_missing_file_fails_at_open sc_ok "/tmp/missing"
                  (initial_world no_env empty_disk) eq_refl eq_refl)
           aws_demo).
Defined.

(** X9.  In a whole run the open for the upload fails only when the
    operating system refuses it: the staging file is never missing, since
    the run opens for reading the very path the snapshot stage has just
    created. *)
Theorem upload_open_fails_only_when_refused :
  upload_never_misses_file MainGo.main
  /\ upload_never_misses_file Part000.main
  /\ upload_never_misses_file Part000Inline.main.
Proof. exact upload_never_misses_file_all. Qed.

Lemma upload_open_fails_only_when_refused_witness :
  "/tmp/snap.out" = getenv env_ok "VAULT_SNAPSHOT_PATH"
  /\ exists e,
      open_denied sc_read_refused "/tmp/snap.out" O_RDONLY = Some e
      /\ PathError "open" "/tmp/snap.out" (External "permission denied")
         = PathError "open" "/tmp/snap.out" e.
Proof.
  apply (proj1 upload_open_fails_only_when_refused sc_read_refused env_ok
           empty_disk "Failed to open snapshot file %q, %v").
  vm_compute. auto 15.
Defined.

(** X10.  The upload key depends on the staging path through its base name
    only: two successful runs with the same prefix upload under the same
    key exactly when the base names of their staging paths are equal, so
    files of the same name in different directories share a key. *)
Theorem upload_key_follows_base_name :
  key_follows_base_name MainGo.main /\ key_follows_base_name Part000.main
  /\ key_follows_base_name Part000Inline.main.
Proof.
  split; [|split]; apply key_follows_base_name_of.
  - apply MainGo_success_content.
  - apply Part000_success_content.
  - apply Part000Inline_success_content.
Qed.

Lemma upload_key_follows_base_name_witness :
  upload_keys (run (MainGo.main sc_ok) (env_at "/a/snap.out") empty_disk).2
  = upload_keys (run (MainGo.main sc_ok) (env_at "/b/snap.out") empty_disk).2.
Proof.
  set (w1 := (run (MainGo.main sc_ok) (env_at "/a/snap.out") empty_disk).2).
  set (w2 := (run (MainGo.main sc_ok) (env_at "/b/snap.out") empty_disk).2).
  apply (proj2 (proj1 upload_key_follows_base_name sc_ok sc_ok
                  (env_at "/a/snap.out") (env_at "/b/snap.out")
                  empty_disk empty_disk w1 w2
                  ltac:(vm_compute; reflexivity) ltac:(vm_compute; reflexivity)
                  eq_refl)).
  reflexivity.
Defined.



(** X12.  For a credential other than "aws-iam", when VAULT_SKIP_VERIFY
    parses and the TLS configuration succeeds, the program of part_000
    runs as the one of src/main.go with the TLS configuration called
    first: same exit status, disk and file objects, and the same calls
    after [ConfigureTLS]. *)
Theorem part000_runs_as_main_go_after_tls (sc : Scenario)
    (env : gmap string string) (disk : gmap string (list byte)) (flag : bool) :
  strconv_ParseBool (getenv env "VAULT_SKIP_VERIFY") = (flag, None) ->
  tls_error sc = None ->
  getenv env "VAULT_TOKEN" <> "aws-iam" ->
  (run (Part000.main sc) env disk).1 = (run (MainGo.main sc) env disk).1
  /\ fs (run (Part000.main sc) env disk).2 = fs (run (MainGo.main sc) env disk).2
  /\ files (run (Part000.main sc) env disk).2
     = files (run (MainGo.main sc) env disk).2
  /\ calls (run (Part000.main sc) env disk).2
     = ConfigureTLS flag :: calls (run (MainGo.main sc) env disk).2.
Proof. exact (Part000_adds_tls_to_MainGo sc env disk flag). Qed.

Lemma part000_runs_as_main_go_after_tls_witness :
  calls (run (Part000.main sc_ok) env_ok empty_disk).2
  = ConfigureTLS false :: calls (run (MainGo.main sc_ok) env_ok empty_disk).2.
Proof.
  refine (proj2 (proj2 (proj2 (part000_runs_as_main_go_after_tls sc_ok env_ok
                                 empty_disk false eq_refl eq_refl _)))).
  vm_compute. discriminate.
Defined.

(** X13.  When the staging file cannot be created, [vaultRaftSnapshot]
    prints the path and the error and returns [nil] and the error of the
    open; no snapshot is asked for, no file object is made, nothing is
    closed, and the disk is as it was. *)
Theorem creation_refused_returns_open_error (sc : Scenario) (w : World)
    (path : string) (e : error) :
  open_denied sc path SNAPSHOT_FLAG = Some e ->
  let failure := PathError "open" path e in
  let said :=
    [OpenFile path SNAPSHOT_FLAG;
     Println (VStr ("snapshot file at " +:+ path +:+ " could not be created"));
     Println (VErr failure)] in
  (forall c,
      Part000.vaultRaftSnapshot sc (Some c) path w
      = Returns (None, Some failure) (emits said w))
  /\ (forall config,
      MainGo.snapshotPath config = path ->
      client_error sc = None -> len (MainGo.token config) = 26 ->
      MainGo.vaultRaftSnapshot sc config w
      = Returns (None, Some failure)
          (emits ([NewClient (MainGo.vaultAddr config);
                   SetToken (MainGo.token config)] ++ said) w)).
Proof. exact (creation_refused_stage sc w path e). Qed.

Lemma creation_refused_returns_open_error_witness :
  Part000.vaultRaftSnapshot sc_creation_refused (Some demo_client)
    "/tmp/snap.out" (initial_world no_env empty_disk)
  = Returns
      (None, Some (PathError "open" "/tmp/snap.out" (External "permission denied")))
      (emits [OpenFile "/tmp/snap.out" SNAPSHOT_FLAG;
              Println (VStr "snapshot file at /tmp/snap.out could not be created");
              Println (VErr (PathError "open" "/tmp/snap.out"
                               (External "permission denied")))]
         (initial_world no_env empty_disk)).
Proof.
  exact (proj1 (creation_refused_returns_open_error sc_creation_refused
                  (initial_world no_env empty_disk) "/tmp/snap.out"
                  (External "permission denied") eq_refl)
           demo_client).
Defined.

(** X14.  When VAULT_SKIP_VERIFY is not set the run is fatal at once:
    [os.Getenv] gives the empty string, which [strconv.ParseBool] does not
    accept; nothing else is called and the disk is as it was. *)
Theorem unset_skip_verify_ends_the_run (sc : Scenario)
    (env : gmap string string) (disk : gmap string (list byte)) :
  env !! "VAULT_SKIP_VERIFY" = None ->
  run (Part000.main sc) env disk
  = (1, {| environ := env; fs := disk; files := [];
           trace := [Fatalln (VStr "Invalid boolean value for VAULT_SKIP_VERIFY")] |})
  /\ run (Part000Inline.main sc) env disk
     = (1, {| environ := env; fs := disk; files := [];
              trace := [Fatalln (VStr "Invalid value for VAULT_SKIP_VERIFY")] |}).
Proof. exact (unset_skip_verify_is_fatal sc env disk). Qed.

Lemma unset_skip_verify_ends_the_run_witness :
  (run (Part000.main sc_ok) no_env empty_disk).1 = 1.
Proof.
  exact (f_equal fst (proj1 (unset_skip_verify_ends_the_run sc_ok no_env
                               empty_disk eq_refl))).
Defined.

(** X15.  The upload stage only reads the disk: however it ends, the disk
    is as it was when it was called. *)
Theorem upload_stage_never_writes (sc : Scenario) (q : string) (w : World) :
  (forall config, fs (world_of (MainGo.snapshotS3Upload sc config q w)) = fs w)
  /\ (forall config, fs (world_of (Part000.snapshotS3Upload sc config q w)) = fs w).
Proof. exact (upload_stage_keeps_disk sc q w). Qed.

(** X16.  The functions keep Go's convention for a result and an error:
    whenever [vaultClientConfig], [vaultRaftSnapshot] or [snapshotS3Upload]
    returns, the result is [nil] exactly when the error is not, so [main]
    never uses a [nil] file or upload result after its error checks. *)
Theorem results_are_nil_exactly_on_error (sc : Scenario) (w : World) :
  (forall config, nil_exactly_on_error (Part000.vaultClientConfig sc config w))
  /\ (forall c path,
      nil_exactly_on_error (Part000.vaultRaftSnapshot sc (Some c) path w))
  /\ (forall config, nil_exactly_on_error (MainGo.vaultRaftSnapshot sc config w))
  /\ (forall config q, nil_exactly_on_error (MainGo.snapshotS3Upload sc config q w))
  /\ (forall config q, nil_exactly_on_error (Part000.snapshotS3Upload sc config q w)).
Proof.
  repeat split; intros.
  all: first [ rewrite Part000_vaultClientConfig_at; unfold client_result
             | rewrite Part000_vaultRaftSnapshot_at; unfold snapshot_result
             | rewrite MainGo_vaultRaftSnapshot_at;
               unfold guarded_snapshot_result, snapshot_result
             | rewrite MainGo_snapshotS3Upload_at; unfold upload_result
             | rewrite Part000_snapshotS3Upload_at; unfold upload_result ].
  all: repeat case_match; cbn [outcome_of nil_exactly_on_error];
    try exact I; simplify_eq.
  all: split;
    [ intros E; first [discriminate E | by eexists]
    | intros [? E]; first [discriminate E | reflexivity] ].
Qed.
